(** * sysmon: the sampling-and-alerting loop of [ResourceMonitor]

    A shallow embedding of [src/sysmon.py]: the constructor, [start],
    [stop], [_log], [send_windows_notification] and one iteration of
    [ResourceMonitor._loop], followed by the properties of the rate
    computation, the firing condition and the hysteresis flag; then the
    rest of the module that can be told apart from its libraries (the memory
    clamp, the interface names, the ping block, the partition list, the
    window's labels and Start button, console mode) and what holds of it.

    Numbers.  Python [int]s are [Z].  Python [float]s are idealised as exact
    rationals [Q]: comparisons, subtraction and division are the exact ones,
    so rounding is left out while every branch the code takes on a float is
    kept.  A [datetime] is its number of microseconds ([Z]), as the class
    stores it; [timedelta.total_seconds()] divides by 10^6.

    Environment.  What an iteration reads from outside (the metrics, the two
    clocks, the ping, the toaster) is an input of the iteration, and what it
    does to the outside is a trace of events.  The callbacks [on_update] and
    [on_log] are functions that return or raise; they are readers of what
    they are given, as the two user interfaces of the program are.  Text
    that depends on float formatting or on the calendar goes through two
    renderers that the definitions take as parameters. *)

From Stdlib Require Import ZArith QArith Qminmax Lqa Lia Bool List Ascii String DecimalString.
Import ListNotations.

Open Scope Z_scope.
Open Scope Q_scope.

(** ** Python values and exceptions *)

(** Exceptions derived from [Exception], the ones [except Exception]
    catches. *)
Inductive exn : Type :=
| OverflowError
| ValueError
| TypeError
| OtherException (what : string).

(** Result of a call that may raise. *)
Inductive outcome (A : Type) : Type :=
| Ok (a : A)
| Raise (e : exn).
Arguments Ok {A} a.
Arguments Raise {A} e.

(** [try: c  except Exception: h]. *)
Definition try_except {A : Type} (c : outcome A) (h : A) : A :=
  match c with
  | Ok a => a
  | Raise _ => h
  end.

(** A numeric argument: an [int], a finite [float], or a float that is
    [inf], [-inf] or [nan]. *)
Inductive PyNum : Type :=
| PInt (z : Z)
| PFloat (q : Q)
| PFloatInf (negative : bool)
| PFloatNan.

(** [int(x)]: the identity on ints, truncation toward zero on finite floats,
    [OverflowError] on infinities and [ValueError] on nan. *)
Definition py_int (x : PyNum) : outcome Z :=
  match x with
  | PInt z => Ok z
  | PFloat q => Ok (Z.quot (Qnum q) (Zpos (Qden q)))
  | PFloatInf _ => Raise OverflowError
  | PFloatNan => Raise ValueError
  end.

(** Largest magnitude an [int] may have for [float(..)] to succeed: ints from
    2^1024 - 2^970 on round to 2^1024 and raise [OverflowError]. *)
Definition float_int_limit : Z := (2 ^ 1024 - 2 ^ 970)%Z.

(** [float(z)] for an int [z]. *)
Definition float_of_int (z : Z) : outcome Q :=
  if (Z.abs z <? float_int_limit)%Z then Ok (inject_Z z) else Raise OverflowError.

(** Float comparisons [a >= b], [a <= b], [a < b]. *)
Definition Qgeb (a b : Q) : bool := Qle_bool b a.
Definition Qleb (a b : Q) : bool := Qle_bool a b.
Definition Qltb (a b : Q) : bool := negb (Qle_bool b a).

(** The builtin [max(a, b)] of two numbers: [b] only when [b > a]. *)
Definition py_max (a b : Q) : Q := if Qltb a b then b else a.

(** ** Data *)

(** [psutil.net_io_counters()]: the cumulative counters the loop reads. *)
Record NetIO : Type := mkNetIO {
  bytes_sent : Z;
  bytes_recv : Z
}.

(** What [get_system_info_dict()] returns, as far as [_loop] reads it.
    [mem_percent] is [info['memory'].percent]; [memory_percent] is the
    clamped copy stored under ['memory_percent']; [net_io] is [None] when
    psutil reports no interface. *)
Record Sample : Type := mkSample {
  timestamp : Z;
  cpu_percent : Q;
  mem_percent : Q;
  memory_percent : Q;
  net_io : option NetIO
}.

(** The [info] dict after [_loop] has added its three keys.  The added
    values are Python objects that readers test against [None]. *)
Record Info : Type := mkInfo {
  base : Sample;
  net_upload_bps : option Q;
  net_download_bps : option Q;
  ping_ms : option Q
}.

Inductive Thread : Type :=
| LoopThread (daemon : bool).

(** The fields of a [ResourceMonitor]. *)
Record Monitor : Type := mkMonitor {
  cpu_threshold : Z;
  mem_threshold : Z;
  interval : Z;
  rate_limit_sec : Z;
  notify_interval_sec : Z;
  email_cfg : list (string * string);
  on_update : option (Info -> outcome unit);
  on_log : option (string -> outcome unit);
  _running : bool;
  _thread : option Thread;
  _last_alert : option Z;
  _alerting : bool;
  _last_net_io : option NetIO;
  _last_net_time : option Q;
  ping_host : string
}.

Definition set_running (b : bool) (t : option Thread) (s : Monitor) : Monitor :=
  mkMonitor (cpu_threshold s) (mem_threshold s) (interval s) (rate_limit_sec s)
    (notify_interval_sec s) (email_cfg s) (on_update s) (on_log s)
    b t (_last_alert s) (_alerting s) (_last_net_io s) (_last_net_time s)
    (ping_host s).

Definition set_alert (last : option Z) (a : bool) (s : Monitor) : Monitor :=
  mkMonitor (cpu_threshold s) (mem_threshold s) (interval s) (rate_limit_sec s)
    (notify_interval_sec s) (email_cfg s) (on_update s) (on_log s)
    (_running s) (_thread s) last a (_last_net_io s) (_last_net_time s)
    (ping_host s).

Definition set_last_net (io : option NetIO) (t : option Q) (s : Monitor) : Monitor :=
  mkMonitor (cpu_threshold s) (mem_threshold s) (interval s) (rate_limit_sec s)
    (notify_interval_sec s) (email_cfg s) (on_update s) (on_log s)
    (_running s) (_thread s) (_last_alert s) (_alerting s) io t
    (ping_host s).

(** What the monitor does to the outside world, in order. *)
Inductive Event : Type :=
| EvLog (msg : string)            (* on_log(msg) was called *)
| EvPrintLog (msg : string)       (* _log printed "[<now>] msg" *)
| EvPrint (line : string)         (* any other print *)
| EvUpdate (info : Info)          (* on_update(info) was called *)
| EvNotify (title body : string)  (* send_windows_notification was called *)
| EvToast (title body : string)   (* the toaster process was spawned *)
| EvThreadStart                   (* the loop thread was started *)
| EvSleep (seconds : Z).          (* time.sleep(seconds) *)

(** ** Text *)

Open Scope string_scope.

(** [str(z)] for an int. *)
Definition str_int (z : Z) : string := NilZero.string_of_int (Z.to_int z).

Definition newline : string := String (Ascii.ascii_of_nat 10) EmptyString.

Definition exn_text (e : exn) : string :=
  match e with
  | OverflowError => "OverflowError"
  | ValueError => "ValueError"
  | TypeError => "TypeError"
  | OtherException what => what
  end.

(** ** Notification delivery *)

(** The module-level switch [ENABLE_TOASTS] and what [subprocess.Popen]
    does when the toaster is launched. *)
Record ToastEnv : Type := mkToastEnv {
  ENABLE_TOASTS : bool;
  popen : outcome unit
}.

Definition printed_notification (title message : string) : Event :=
  EvPrint ("[NOTIFICATION] " ++ title ++ ": " ++ message).

(** [send_windows_notification(title, message)]: the returned pair and the
    effects, the call itself first. *)
Definition send_windows_notification (env : ToastEnv) (title message : string)
  : (bool * string) * list Event :=
  if ENABLE_TOASTS env then
    match popen env with
    | Ok _ =>
        ((true, "Launched external toaster"),
         [EvNotify title message; EvToast title message])
    | Raise e =>
        ((false, "Toast unavailable; printed to console"),
         [EvNotify title message;
          EvPrint ("[NOTIFICATION LAUNCH FAIL] " ++ exn_text e);
          printed_notification title message])
    end
  else
    ((false, "Toast unavailable; printed to console"),
     [EvNotify title message; printed_notification title message]).

(** ** Construction and lifecycle *)

(** [ResourceMonitor.__init__].  The three [int(..)] conversions run in
    source order; the first one that raises ends the construction. *)
Definition __init__ (cpu_thr mem_thr : Z)
    (interval_arg rate_limit_min notify_interval_arg : PyNum)
    (email : option (list (string * string)))
    (upd : option (Info -> outcome unit)) (log : option (string -> outcome unit))
    (host : string) : outcome Monitor :=
  match py_int interval_arg with
  | Raise e => Raise e
  | Ok i =>
      match py_int rate_limit_min with
      | Raise e => Raise e
      | Ok r =>
          match py_int notify_interval_arg with
          | Raise e => Raise e
          | Ok n =>
              Ok {| cpu_threshold := cpu_thr;
                    mem_threshold := mem_thr;
                    interval := Z.max 1 i;
                    rate_limit_sec := Z.max 0 (r * 60);
                    notify_interval_sec := Z.max 1 n;
                    email_cfg := match email with Some c => c | None => [] end;
                    on_update := upd;
                    on_log := log;
                    _running := false;
                    _thread := None;
                    _last_alert := None;
                    _alerting := false;
                    _last_net_io := None;
                    _last_net_time := None;
                    ping_host := host |}
          end
      end
  end.

(** [_log]: the callback when there is one (its exceptions are swallowed),
    a console line otherwise. *)
Definition _log (s : Monitor) (msg : string) : list Event :=
  match on_log s with
  | Some f => let _ := try_except (f msg) tt in [EvLog msg]
  | None => [EvPrintLog msg]
  end.

(** [start]. *)
Definition start (s : Monitor) : Monitor * list Event :=
  if _running s then (s, [])
  else
    let s' := set_running true (Some (LoopThread true)) s in
    (s', EvThreadStart :: _log s' "Monitor started").

(** [stop]. *)
Definition stop (s : Monitor) : Monitor * list Event :=
  let s' := set_running false (_thread s) s in
  (s', _log s' "Monitor stopped").

(** ** One iteration of [_loop] *)

(** Lines 286-296: the two rates, from the stored counters when there are
    any.  Both stay at their initial [0.0] otherwise, and when a conversion
    raises. *)
Definition net_rates (now_ts : Q) (io : NetIO) (s : Monitor) : Q * Q :=
  match _last_net_io s, _last_net_time s with
  | Some last, Some t0 =>
      let elapsed := py_max (1 # 1000000) (now_ts - t0) in
      match float_of_int (bytes_sent io - bytes_sent last) with
      | Raise _ => (0, 0)
      | Ok delta_sent =>
          match float_of_int (bytes_recv io - bytes_recv last) with
          | Raise _ => (0, 0)
          | Ok delta_recv => (delta_sent / elapsed, delta_recv / elapsed)
          end
      end
  | _, _ => (0, 0)
  end.

(** Lines 284-326: the enriched [info] and the monitor with the counters
    saved for the next sample.  [ping] is what the guarded ping block left
    in [ping_ms]. *)
Definition snapshot (now_ts : Q) (ping : option Q) (smp : Sample) (s : Monitor)
  : Info * Monitor :=
  let '(up_bps, down_bps, s1) :=
    match net_io smp with
    | Some io =>
        (net_rates now_ts io s, set_last_net (Some io) (Some now_ts) s)
    | None => ((0, 0), s)
    end in
  (mkInfo smp (Some up_bps) (Some down_bps) ping, s1).

(** Lines 329-333: the observer call; whatever it raises is dropped. *)
Definition publish (s : Monitor) (info : Info) : list Event :=
  match on_update s with
  | Some f => let _ := try_except (f info) tt in [EvUpdate info]
  | None => []
  end.

(** [timedelta.total_seconds()]. *)
Definition total_seconds (micros : Z) : Q := inject_Z micros / inject_Z 1000000.

(** Line 348. *)
Definition can_send (now : Z) (s : Monitor) : bool :=
  match _last_alert s with
  | None => true
  | Some last => Qgeb (total_seconds (now - last)) (inject_Z (notify_interval_sec s))
  end.

(** Lines 376-378. *)
Definition recover (clear_cpu clear_mem : Z) (cpu mem : Q) (s : Monitor)
  : Monitor * list Event :=
  if _alerting s && Qltb cpu (inject_Z clear_cpu) && Qltb mem (inject_Z clear_mem)
  then (set_alert (_last_alert s) false s,
        _log s "Recovered: metrics below clear thresholds")
  else (s, []).

(** What one iteration is given by its environment. *)
Record TickInput : Type := mkTickInput {
  sample : outcome Sample;   (* get_system_info_dict() *)
  now_ts : Q;                (* time.time() *)
  ping : option Q;           (* outcome of the ping block *)
  now : Z;                   (* datetime.now() *)
  toasts : ToastEnv
}.

(** How far an iteration got: the monitor, the effects, and the exception
    that left the loop body, if any. *)
Definition Result : Type := (Monitor * list Event * option exn)%type.

Section Rendering.

(** [datetime.isoformat()] and fixed-point float formatting ["{x:.Nf}"]. *)
Variable isoformat : Z -> string.
Variable fmt_fixed : nat -> Q -> string.

(** Lines 336-341. *)
Definition trigger_reasons (cpu mem : Q) (s : Monitor) : list string :=
  app
    (if Qgeb cpu (inject_Z (cpu_threshold s))
     then ["CPU " ++ fmt_fixed 1 cpu ++ "% >= " ++ str_int (cpu_threshold s) ++ "%"]
     else [])
    (if Qgeb mem (inject_Z (mem_threshold s))
     then ["Memory " ++ fmt_fixed 1 mem ++ "% >= " ++ str_int (mem_threshold s) ++ "%"]
     else []).

(** Lines 352-361.  Dividing a [None] download rate raises. *)
Definition build_body (now : Z) (cpu mem : Q) (info : Info) : outcome string :=
  let head :=
    ["Timestamp: " ++ isoformat now;
     "CPU: " ++ fmt_fixed 1 cpu ++ "%";
     "Memory: " ++ fmt_fixed 1 mem ++ "%"] in
  let tail :=
    match ping_ms info with
    | Some p => ["Ping: " ++ fmt_fixed 0 p ++ " ms"]
    | None => []
    end in
  match net_upload_bps info with
  | Some up =>
      match net_download_bps info with
      | Some down =>
          let speeds :=
            ["Upload: " ++ fmt_fixed 2 (up / 1024) ++ " KB/s";
             "Download: " ++ fmt_fixed 2 (down / 1024) ++ " KB/s"] in
          Ok (concat newline (app head (app speeds tail)))
      | None => Raise TypeError
      end
  | None => Ok (concat newline (app head tail))
  end.

(** Lines 335-374: breach detection, the zero guard, the rate limit and the
    notification. *)
Definition evaluate (now : Z) (env : ToastEnv) (info : Info) (cpu mem : Q)
    (s : Monitor) : Result :=
  match trigger_reasons cpu mem s with
  | [] => (s, [], None)
  | reasons =>
      if Qleb cpu 0 && Qleb mem 0 then
        (s, _log s "Alert suppressed: metrics zero (waiting for real readings)", None)
      else if can_send now s then
        let subject := "Resource alert: " ++ concat ", " reasons in
        match build_body now cpu mem info with
        | Raise e => (s, [], Some e)
        | Ok body =>
            let '((success, msg), sent) := send_windows_notification env subject body in
            let s' := set_alert (Some now) true s in
            if success
            then (s', app sent (_log s' ("Notification shown: " ++ subject)), None)
            else (s', app sent (_log s' ("Notification failed (fallback): " ++ msg)),
                  None)
        end
      else (s, _log s "Alert suppressed by rate limit", None)
  end.

(** The body of the [while] loop, lines 282-380. *)
Definition tick (clear_cpu clear_mem : Z) (inp : TickInput) (s : Monitor) : Result :=
  match sample inp with
  | Raise e => (s, [], Some e)
  | Ok smp =>
      let '(info, s1) := snapshot (now_ts inp) (ping inp) smp s in
      let cpu := cpu_percent smp in
      let mem := mem_percent smp in
      let published := publish s1 info in
      match evaluate (now inp) (toasts inp) info cpu mem s1 with
      | (s2, evs, Some e) => (s2, (published ++ evs)%list, Some e)
      | (s2, evs, None) =>
          let '(s3, recovered) := recover clear_cpu clear_mem cpu mem s2 in
          (s3, (published ++ evs ++ recovered ++ [EvSleep (interval s3)])%list, None)
      end
  end.

(** [while self._running: ...] over the environments of successive
    iterations; an exception that leaves the body ends the thread. *)
Fixpoint run_loop (clear_cpu clear_mem : Z) (inps : list TickInput) (s : Monitor)
  : Result :=
  match inps with
  | [] => (s, [], None)
  | inp :: rest =>
      if _running s then
        match tick clear_cpu clear_mem inp s with
        | (s', evs, Some e) => (s', evs, Some e)
        | (s', evs, None) =>
            let '(s'', evs', r) := run_loop clear_cpu clear_mem rest s' in
            (s'', (evs ++ evs')%list, r)
        end
      else (s, [], None)
  end.

(** [_loop]: the clear thresholds are computed once, on entry (lines
    279-280). *)
Definition _loop (inps : list TickInput) (s : Monitor) : Result :=
  let clear_cpu := Z.max 0 (cpu_threshold s - 15) in
  let clear_mem := Z.max 0 (mem_threshold s - 15) in
  run_loop clear_cpu clear_mem inps s.

End Rendering.

(** ** Concrete monitors and inputs used in the examples *)

(** [ResourceMonitor()] with every default. *)
Definition default_monitor : Monitor :=
  {| cpu_threshold := 90;
     mem_threshold := 70;
     interval := 1;
     rate_limit_sec := 300;
     notify_interval_sec := 10;
     email_cfg := [];
     on_update := None;
     on_log := None;
     _running := false;
     _thread := None;
     _last_alert := None;
     _alerting := false;
     _last_net_io := None;
     _last_net_time := None;
     ping_host := "8.8.8.8" |}.

(** A sample with the given readings and counters. *)
Definition reading (cpu mem : Q) (sent recv : Z) : Sample :=
  mkSample 0 cpu mem mem (Some (mkNetIO sent recv)).

(** The default monitor after it saw counters 1000 / 5000 at t = 10 s. *)
Definition seen_counters : Monitor :=
  set_last_net (Some (mkNetIO 1000 5000)) (Some 10) default_monitor.

(** Toasts disabled, as the module starts. *)
Definition console_only : ToastEnv := mkToastEnv false (Ok tt).

(** An observer that always raises, and one that never does. *)
Definition failing_observer (_ : Info) : outcome unit :=
  Raise (OtherException "observer failed").
Definition quiet_observer (_ : Info) : outcome unit := Ok tt.

(** Stand-ins for the two text renderers, used only to run examples. *)
Definition plain_iso (z : Z) : string := str_int z.
Definition plain_fixed (_ : nat) (q : Q) : string :=
  str_int (Qnum q / Zpos (Qden q))%Z.

(** A monitor in use: started, thresholds 90 / 70. *)
Definition running_monitor : Monitor := fst (start default_monitor).

(** The same monitor after it raised an alert at t = 10 s. *)
Definition alerted_monitor : Monitor :=
  set_alert (Some 10000000%Z) true running_monitor.

(** A monitor whose thresholds are both 0, so that zero readings reach
    them. *)
Definition hair_trigger : Monitor :=
  mkMonitor 0 0 1 300 10 [] None None true (Some (LoopThread true))
    None false None None "8.8.8.8".

(** The running monitor with an observer that raises, logging through a
    callback. *)
Definition watched_monitor : Monitor :=
  mkMonitor 90 70 1 300 10 [] (Some failing_observer) (Some (fun _ => Ok tt))
    true (Some (LoopThread true)) None false None None "8.8.8.8".

(** Iterations at the given wall-clock second with the given readings. *)
Definition at_second (sec : Z) (cpu mem : Q) : TickInput :=
  mkTickInput (Ok (reading cpu mem 1000 5000)) (inject_Z sec) None
    (sec * 1000000)%Z console_only.

(** A kernel counter: an unsigned 64-bit value. *)
Definition counter (z : Z) : Prop := (0 <= z < 2 ^ 64)%Z.
Definition counters_ok (io : NetIO) : Prop :=
  counter (bytes_sent io) /\ counter (bytes_recv io).

(** The elapsed time the rate computation divides by (line 289). *)
Definition elapsed_since (now_ts t0 : Q) : Q := py_max (1 # 1000000) (now_ts - t0).

(** The event is a call of the notifier. *)
Definition is_notify (e : Event) : bool :=
  match e with
  | EvNotify _ _ => true
  | _ => false
  end.

(** Number of notifier calls in a trace. *)
Definition notify_count (evs : list Event) : nat :=
  List.length (List.filter is_notify evs).

(** ** The firing condition, as the loop tests it and as the specification words it *)

(** Lines 338-341 found at least one reason. *)
Definition breach (cpu mem : Q) (s : Monitor) : bool :=
  Qgeb cpu (inject_Z (cpu_threshold s)) || Qgeb mem (inject_Z (mem_threshold s)).

(** The three nested tests of lines 343-349, as one boolean. *)
Definition fires (now : Z) (cpu mem : Q) (s : Monitor) : bool :=
  breach cpu mem s && negb (Qleb cpu 0 && Qleb mem 0) && can_send now s.

(** The firing condition in the words of the specification. *)
Definition alert_due (now : Z) (cpu mem : Q) (s : Monitor) : Prop :=
  (inject_Z (cpu_threshold s) <= cpu \/ inject_Z (mem_threshold s) <= mem) /\
  ~ (cpu <= 0 /\ mem <= 0) /\
  (_last_alert s = None \/
   exists last, _last_alert s = Some last /\
     inject_Z (notify_interval_sec s) <= total_seconds (now - last)).


(** The clear threshold [_loop] derives from a fire threshold. *)
Definition clear_threshold (thr : Z) : Z := Z.max 0 (thr - 15).

(** The fixed log messages of lines 346, 374 and 378. *)
Definition suppressed_zero : string :=
  "Alert suppressed: metrics zero (waiting for real readings)".
Definition suppressed_rate : string := "Alert suppressed by rate limit".
Definition recovered_msg : string := "Recovered: metrics below clear thresholds".

(** The monitor with another observer registered. *)
Definition with_observer (f : option (Info -> outcome unit)) (s : Monitor) : Monitor :=
  mkMonitor (cpu_threshold s) (mem_threshold s) (interval s) (rate_limit_sec s)
    (notify_interval_sec s) (email_cfg s) f (on_log s)
    (_running s) (_thread s) (_last_alert s) (_alerting s) (_last_net_io s)
    (_last_net_time s) (ping_host s).

(** The fields that only the constructor and the caller write. *)
Definition same_config (s s' : Monitor) : Prop :=
  cpu_threshold s' = cpu_threshold s /\ mem_threshold s' = mem_threshold s /\
  interval s' = interval s /\ notify_interval_sec s' = notify_interval_sec s /\
  on_update s' = on_update s /\ on_log s' = on_log s /\ _running s' = _running s.

(** Events that are log lines. *)
Definition is_log (e : Event) : bool :=
  match e with
  | EvLog _ | EvPrintLog _ => true
  | _ => false
  end.

(** Projections of a [Result]. *)
Definition final (r : Result) : Monitor := fst (fst r).
Definition trace (r : Result) : list Event := snd (fst r).
Definition escaped (r : Result) : option exn := snd r.

(** Events that are observer calls, and their number in a trace. *)
Definition is_update (e : Event) : bool :=
  match e with
  | EvUpdate _ => true
  | _ => false
  end.

Definition update_count (evs : list Event) : nat :=
  List.length (List.filter is_update evs).

(** An int or a finite float: [inf], [-inf] and [nan] are left out. *)
Definition finite_number (x : PyNum) : Prop :=
  match x with
  | PInt _ | PFloat _ => True
  | PFloatInf _ | PFloatNan => False
  end.

(** The value of a number with its fractional part dropped, toward zero. *)
Definition truncated (x : PyNum) : Z :=
  match x with
  | PInt z => z
  | PFloat q => Z.quot (Qnum q) (Zpos (Qden q))
  | PFloatInf _ | PFloatNan => 0
  end.

(** ** The rest of the module *)

(** The builtin [min(a, b)] of two numbers: [b] only when [b < a]. *)
Definition py_min (a b : Q) : Q := if Qltb b a then b else a.

(** [x or 0.0] for a float that may be missing or [None]. *)
Definition or_zero (x : option Q) : Q :=
  match x with
  | Some v => if Qeq_bool v 0 then 0 else v
  | None => 0
  end.

(** [min(max(x or 0.0, 0.0), 100.0)], the clamp of lines 134, 210 and 476. *)
Definition clamp_percent (x : option Q) : Q := py_min (py_max (or_zero x) 0) 100.

(** The part of [get_system_info_dict] that [_loop] reads, from what psutil
    returned. *)
Definition sample_of (ts : Z) (cpu mem : Q) (io : option NetIO) : Sample :=
  mkSample ts cpu mem (clamp_percent (Some mem)) io.

(** Assignments to the two threshold attributes. *)
Definition set_cpu_threshold (thr : Z) (s : Monitor) : Monitor :=
  mkMonitor thr (mem_threshold s) (interval s) (rate_limit_sec s)
    (notify_interval_sec s) (email_cfg s) (on_update s) (on_log s)
    (_running s) (_thread s) (_last_alert s) (_alerting s) (_last_net_io s)
    (_last_net_time s) (ping_host s).

Definition set_mem_threshold (thr : Z) (s : Monitor) : Monitor :=
  mkMonitor (cpu_threshold s) thr (interval s) (rate_limit_sec s)
    (notify_interval_sec s) (email_cfg s) (on_update s) (on_log s)
    (_running s) (_thread s) (_last_alert s) (_alerting s) (_last_net_io s)
    (_last_net_time s) (ping_host s).

(** The handler of the Start button (lines 497-501).  The two arguments are
    what [cpu_thr.get()] and [mem_thr.get()] give: the entry as an int, or
    the error Tk raises when the entry is not one. *)
Definition gui_start (cpu_entry mem_entry : outcome Z) (s : Monitor) : Result :=
  match cpu_entry with
  | Raise e => (s, [], Some e)
  | Ok c =>
      let s1 := set_cpu_threshold c s in
      match mem_entry with
      | Raise e => (s1, [], Some e)
      | Ok m =>
          let '(s2, evs) := start (set_mem_threshold m s1) in
          (s2, evs, None)
      end
  end.

(** The monitor with other values in the two fields the loop never reads. *)
Definition with_legacy (limit : Z) (cfg : list (string * string)) (s : Monitor)
  : Monitor :=
  mkMonitor (cpu_threshold s) (mem_threshold s) (interval s) limit
    (notify_interval_sec s) cfg (on_update s) (on_log s)
    (_running s) (_thread s) (_last_alert s) (_alerting s) (_last_net_io s)
    (_last_net_time s) (ping_host s).

(** *** Interface names (lines 174-189) *)

(** [str.lower()] on ASCII text. *)
Definition lower_ascii (c : Ascii.ascii) : Ascii.ascii :=
  let n := Ascii.nat_of_ascii c in
  if (65 <=? n)%nat && (n <=? 90)%nat then Ascii.ascii_of_nat (n + 32) else c.

Fixpoint lower (s : string) : string :=
  match s with
  | EmptyString => EmptyString
  | String c r => String (lower_ascii c) (lower r)
  end.

(** [needle in hay]. *)
Fixpoint contains (needle hay : string) : bool :=
  prefix needle hay ||
  match hay with
  | EmptyString => false
  | String _ r => contains needle r
  end.

(** The value of [nic_type] for an interface name, with [system] the
    lowered [platform.system()]. *)
Definition nic_type (system ifname : string) : string :=
  let lname := lower ifname in
  if prefix "lo" lname || contains "loopback" lname then "loopback"
  else if String.eqb system "windows" then
    if contains "wi-fi" lname || contains "wifi" lname
       || contains "wireless" lname || contains "wlan" lname
    then "wireless" else "ethernet"
  else
    if prefix "wl" lname || contains "wifi" lname || contains "wlan" lname
    then "wireless"
    else if prefix "en" lname || prefix "eth" lname then "ethernet"
    else "unknown".

(** *** The ping block (lines 307-326) *)

Definition is_digit (c : Ascii.ascii) : bool :=
  let n := Ascii.nat_of_ascii c in (48 <=? n)%nat && (n <=? 57)%nat.

(** The ASCII characters [\s] matches. *)
Definition is_space (c : Ascii.ascii) : bool :=
  let n := Ascii.nat_of_ascii c in
  ((9 <=? n)%nat && (n <=? 13)%nat) || ((28 <=? n)%nat && (n <=? 32)%nat).

(** [\s*], greedy. *)
Fixpoint skip_space (s : string) : string :=
  match s with
  | String c r => if is_space c then skip_space r else s
  | EmptyString => s
  end.

(** [[0-9]*], greedy: the digits and what follows them. *)
Fixpoint take_digits (s : string) : string * string :=
  match s with
  | String c r =>
      if is_digit c
      then let (digits, rest) := take_digits r in (String c digits, rest)
      else (EmptyString, s)
  | EmptyString => (EmptyString, EmptyString)
  end.

(** What is left of [s] after the literal [p], if [s] starts with it. *)
Fixpoint strip_prefix (p s : string) : option string :=
  match p, s with
  | EmptyString, _ => Some s
  | String a p', String b s' => if Ascii.eqb a b then strip_prefix p' s' else None
  | String _ _, EmptyString => None
  end.

(** The pattern [time[=<]\s*([0-9]+(?:\.[0-9]+)?)\s*ms] matched at the start
    of [s]: the integer digits and the fraction digits of group 1.  Each
    greedy repetition is followed by something it cannot itself match, so
    giving characters back never turns a failure into a match. *)
Definition match_time (s : string) : option (string * option string) :=
  match strip_prefix "time" s with
  | Some (String c r) =>
      if Ascii.eqb c "="%char || Ascii.eqb c "<"%char then
        let (whole, r1) := take_digits (skip_space r) in
        match whole with
        | EmptyString => None
        | String _ _ =>
            let '(frac, r2) :=
              match r1 with
              | String dot r1' =>
                  if Ascii.eqb dot "."%char then
                    let (digits, after) := take_digits r1' in
                    match digits with
                    | EmptyString => (None, r1)
                    | String _ _ => (Some digits, after)
                    end
                  else (None, r1)
              | EmptyString => (None, r1)
              end in
            match strip_prefix "ms" (skip_space r2) with
            | Some _ => Some (whole, frac)
            | None => None
            end
        end
      else None
  | _ => None
  end.

(** The pattern [time=\s*([0-9]+)ms] matched at the start of [s]. *)
Definition match_time_plain (s : string) : option string :=
  match strip_prefix "time=" s with
  | Some r =>
      let (whole, r1) := take_digits (skip_space r) in
      match whole with
      | EmptyString => None
      | String _ _ =>
          match strip_prefix "ms" r1 with
          | Some _ => Some whole
          | None => None
          end
      end
  | None => None
  end.

(** [re.search]: the match at the leftmost position that has one. *)
Fixpoint search_time (s : string) : option (string * option string) :=
  match match_time s with
  | Some g => Some g
  | None =>
      match s with
      | String _ r => search_time r
      | EmptyString => None
      end
  end.

Fixpoint search_time_plain (s : string) : option string :=
  match match_time_plain s with
  | Some g => Some g
  | None =>
      match s with
      | String _ r => search_time_plain r
      | EmptyString => None
      end
  end.

(** The number a string of digits denotes. *)
Fixpoint digits_value (acc : Z) (s : string) : Z :=
  match s with
  | EmptyString => acc
  | String c r => digits_value (10 * acc + Z.of_nat (Ascii.nat_of_ascii c - 48)) r
  end.

(** [float(m.group(1))]. *)
Definition float_of_group (g : string * option string) : Q :=
  match g with
  | (whole, None) => inject_Z (digits_value 0 whole)
  | (whole, Some frac) =>
      inject_Z (digits_value 0 whole)
      + inject_Z (digits_value 0 frac) / inject_Z (10 ^ Z.of_nat (String.length frac))
  end.

(** What [subprocess.run] returned. *)
Record Completed : Type := mkCompleted {
  stdout : string;
  stderr : string
}.

(** The whole guarded block: [ping_ms] when it ends. *)
Definition ping_block (run : outcome Completed) : option Q :=
  match run with
  | Raise _ => None
  | Ok proc =>
      let out := match stdout proc with
                 | EmptyString => stderr proc
                 | String _ _ => stdout proc
                 end in
      match search_time out with
      | Some g => Some (float_of_group g)
      | None =>
          match search_time_plain out with
          | Some whole => Some (float_of_group (whole, None))
          | None => None
          end
      end
  end.

(** *** Disk partitions (lines 136-152) *)

Record Usage : Type := mkUsage {
  total : Z;
  used : Z;
  free : Z;
  percent : Q
}.

Record Partition : Type := mkPartition {
  device : string;
  mountpoint : string;
  fstype : string;
  opts : string
}.

Record PartitionEntry : Type := mkEntry {
  entry_of : Partition;
  usage : Usage
}.

(** The [for] loop of lines 138-143: a partition whose usage cannot be read
    is passed over. *)
Fixpoint collect_partitions (disk_usage : string -> outcome Usage)
    (parts : list Partition) : list PartitionEntry :=
  match parts with
  | [] => []
  | part :: rest =>
      match disk_usage (mountpoint part) with
      | Ok u => mkEntry part u :: collect_partitions disk_usage rest
      | Raise _ => collect_partitions disk_usage rest
      end
  end.

(** The usage of the partition could be read. *)
Definition usage_read (disk_usage : string -> outcome Usage) (part : Partition)
  : bool :=
  match disk_usage (mountpoint part) with
  | Ok _ => true
  | Raise _ => false
  end.

(** Lines 136-152, with [listing] what [psutil.disk_partitions] did and
    [os_name] the value of [os.name]. *)
Definition disk_partitions (disk_usage : string -> outcome Usage)
    (listing : outcome (list Partition)) (os_name : string) : list PartitionEntry :=
  match listing with
  | Ok parts => collect_partitions disk_usage parts
  | Raise _ =>
      let root_path := if String.eqb os_name "nt" then "C:\" else "/" in
      match disk_usage root_path with
      | Ok disk => [mkEntry (mkPartition root_path root_path "" "") disk]
      | Raise _ => []
      end
  end.

(** *** Console mode (lines 530-540) *)

Inductive ConsoleInput : Type :=
| Sampled (smp : outcome Sample)   (* get_system_info_dict() *)
| Interrupted.                     (* Ctrl-C *)

Inductive ConsoleEvent : Type :=
| Reported (smp : Sample)          (* print_system_info(info) *)
| AlertLine                        (* print('[ALERT] High resource usage detected') *)
| Slept (seconds : Z)
| StoppedLine.                     (* print('Monitoring stopped.') *)

(** The [while True] loop of console mode; the exception that ends the
    program, if it is not Ctrl-C. *)
Fixpoint console_loop (cpu_thr mem_thr interval_arg : Z) (inps : list ConsoleInput)
  : list ConsoleEvent * option exn :=
  match inps with
  | [] => ([], None)
  | Interrupted :: _ => ([StoppedLine], None)
  | Sampled (Raise e) :: _ => ([], Some e)
  | Sampled (Ok smp) :: rest =>
      let alert :=
        if Qgeb (cpu_percent smp) (inject_Z cpu_thr)
           || Qgeb (mem_percent smp) (inject_Z mem_thr)
        then [AlertLine] else [] in
      let '(evs, r) := console_loop cpu_thr mem_thr interval_arg rest in
      (app (Reported smp :: alert) (Slept (Z.max 1 interval_arg) :: evs), r)
  end.

Definition is_alert_line (e : ConsoleEvent) : bool :=
  match e with
  | AlertLine => true
  | _ => false
  end.

Definition breaching (cpu_thr mem_thr : Z) (i : ConsoleInput) : bool :=
  match i with
  | Sampled (Ok smp) =>
      Qgeb (cpu_percent smp) (inject_Z cpu_thr)
      || Qgeb (mem_percent smp) (inject_Z mem_thr)
  | _ => false
  end.

(** *** The window's labels (lines 473-493) *)

Record Labels : Type := mkLabels {
  cpu_var : string;
  mem_var : string;
  net_up_var : string;
  net_down_var : string;
  ping_var : string
}.

Section Window.

Variable fmt_fixed : nat -> Q -> string.

(** [ui_update(info)]: the five labels it sets. *)
Definition ui_update (info : Info) : Labels :=
  {| cpu_var := fmt_fixed 1 (cpu_percent (base info)) ++ "%";
     mem_var := fmt_fixed 1 (clamp_percent (Some (memory_percent (base info)))) ++ "%";
     net_up_var :=
       match net_upload_bps info with
       | Some up => fmt_fixed 2 (up / 1024) ++ " KB/s"
       | None => "-- KB/s"
       end;
     net_down_var :=
       match net_download_bps info with
       | Some down => fmt_fixed 2 (down / 1024) ++ " KB/s"
       | None => "-- KB/s"
       end;
     ping_var :=
       match ping_ms info with
       | Some p => fmt_fixed 0 p ++ " ms"
       | None => "-- ms"
       end |}.

End Window.

(** ** Comparisons *)

Lemma Qgeb_true (a b : Q) : Qgeb a b = true <-> b <= a.
Proof. unfold Qgeb. apply Qle_bool_iff. Qed.

Lemma Qleb_true (a b : Q) : Qleb a b = true <-> a <= b.
Proof. unfold Qleb. apply Qle_bool_iff. Qed.

Lemma Qltb_true (a b : Q) : Qltb a b = true <-> a < b.
Proof.
  unfold Qltb. rewrite negb_true_iff.
  split; intro H.
  - apply Qnot_le_lt. intro Hle. apply Qle_bool_iff in Hle. congruence.
  - destruct (Qle_bool b a) eqn:E; [|reflexivity].
    apply Qle_bool_iff in E. exfalso. exact (Qlt_not_le _ _ H E).
Qed.

Lemma py_max_lower (a b : Q) : a <= py_max a b.
Proof.
  unfold py_max. destruct (Qltb a b) eqn:E.
  - apply Qltb_true in E. apply Qlt_le_weak. exact E.
  - apply Qle_refl.
Qed.

Lemma elapsed_positive (now_ts t0 : Q) : 0 < elapsed_since now_ts t0.
Proof.
  unfold elapsed_since.
  apply Qlt_le_trans with (y := 1 # 1000000); [reflexivity | apply py_max_lower].
Qed.

Lemma counter_below_limit : (2 ^ 64 <= float_int_limit)%Z.
Proof. apply Z.leb_le. vm_compute. reflexivity. Qed.

(** The difference of two kernel counters always converts. *)
Lemma float_of_counter_delta (a b : Z) :
  counter a -> counter b -> float_of_int (a - b) = Ok (inject_Z (a - b)).
Proof.
  intros [Ha1 Ha2] [Hb1 Hb2]. unfold float_of_int.
  pose proof counter_below_limit as L.
  destruct (Z.ltb_spec (Z.abs (a - b)) float_int_limit) as [_|Hge]; [reflexivity|].
  exfalso. lia.
Qed.

(** With stored counters in range, [net_rates] is the plain quotient. *)
Lemma net_rates_stored (now_ts : Q) (io last : NetIO) (t0 : Q) (s : Monitor) :
  _last_net_io s = Some last -> _last_net_time s = Some t0 ->
  counters_ok io -> counters_ok last ->
  net_rates now_ts io s =
    (inject_Z (bytes_sent io - bytes_sent last) / elapsed_since now_ts t0,
     inject_Z (bytes_recv io - bytes_recv last) / elapsed_since now_ts t0).
Proof.
  intros Hio Ht [Hs Hr] [Hs' Hr']. unfold net_rates. rewrite Hio, Ht.
  rewrite (float_of_counter_delta _ _ Hs Hs').
  rewrite (float_of_counter_delta _ _ Hr Hr').
  reflexivity.
Qed.

Lemma quotient_nonneg (d : Z) (e : Q) : (0 <= d)%Z -> 0 < e -> 0 <= inject_Z d / e.
Proof.
  intros Hd He. apply Qle_shift_div_l; [exact He|].
  rewrite Qmult_0_l. rewrite Zle_Qle in Hd. exact Hd.
Qed.

Lemma quotient_negative (d : Z) (e : Q) : (d < 0)%Z -> 0 < e -> inject_Z d / e < 0.
Proof.
  intros Hd He. apply Qlt_shift_div_r; [exact He|].
  rewrite Qmult_0_l. rewrite Zlt_Qlt in Hd. exact Hd.
Qed.

(** ** Network rates *)

(** C6.  With stored counters, kernel counters in range and a counter that
    did not go back, the published rate is exactly (curr - prev) / elapsed,
    where elapsed is [max(1e-6, now - previous time)], at least 1e-6 and so
    never zero. *)
Theorem rate_is_delta_over_elapsed
    (now_ts : Q) (ping : option Q) (smp : Sample) (s : Monitor)
    (io last : NetIO) (t0 : Q) :
  net_io smp = Some io ->
  _last_net_io s = Some last -> _last_net_time s = Some t0 ->
  counters_ok io -> counters_ok last ->
  let info := fst (snapshot now_ts ping smp s) in
  let elapsed := py_max (1 # 1000000) (now_ts - t0) in
  ((bytes_sent last <= bytes_sent io)%Z ->
     net_upload_bps info =
       Some (inject_Z (bytes_sent io - bytes_sent last) / elapsed)) /\
  ((bytes_recv last <= bytes_recv io)%Z ->
     net_download_bps info =
       Some (inject_Z (bytes_recv io - bytes_recv last) / elapsed)) /\
  (1 # 1000000) <= elapsed /\ ~ elapsed == 0.
Proof.
  intros Hnet Hio Ht Hok Hok' info elapsed.
  assert (Hinfo : info =
    mkInfo smp
      (Some (inject_Z (bytes_sent io - bytes_sent last) / elapsed))
      (Some (inject_Z (bytes_recv io - bytes_recv last) / elapsed)) ping).
  { unfold info, snapshot. rewrite Hnet.
    rewrite (net_rates_stored now_ts io last t0 s Hio Ht Hok Hok'). reflexivity. }
  rewrite Hinfo. cbn [net_upload_bps net_download_bps].
  repeat split.
  - apply py_max_lower.
  - intro Hz. pose proof (elapsed_positive now_ts t0) as Hp.
    unfold elapsed_since in Hp. fold elapsed in Hp. rewrite Hz in Hp.
    exact (Qlt_irrefl 0 Hp).
Qed.

Lemma rate_is_delta_over_elapsed_witness :
  let info := fst (snapshot 11 None (reading 20 30 1600 5000) seen_counters) in
  net_upload_bps info = Some (inject_Z 600 / py_max (1 # 1000000) (11 - 10)).
Proof.
  refine (proj1 (rate_is_delta_over_elapsed 11 None (reading 20 30 1600 5000)
            seen_counters (mkNetIO 1600 5000) (mkNetIO 1000 5000) 10
            eq_refl eq_refl eq_refl _ _) _).
  - split; split; vm_compute; intuition discriminate.
  - split; split; vm_compute; intuition discriminate.
  - simpl. lia.
Defined.

(** C1, the claim fails: after counters 1000 / 5000, a sample one second
    later whose sent counter fell to 400 publishes an upload rate of -600
    bytes per second, which is neither 0 nor non-negative. *)
Lemma counter_reset_gives_negative_rate :
  let info := fst (snapshot 11 None (reading 20 30 400 5000) seen_counters) in
  net_upload_bps info = Some (-600 # 1) /\ ~ 0 <= -600 # 1 /\ ~ -600 # 1 == 0.
Proof.
  split; [reflexivity|]. split; intro H; vm_compute in H.
  - apply H. reflexivity.
  - discriminate H.
Qed.

(** C1, amended.  With stored counters and kernel counters in range, the
    published rates are the unclamped quotients (curr - prev) / elapsed,
    with elapsed = max(1e-6, now - previous time): so they are non-negative
    when the counter did not go back and strictly negative, not 0, when it
    did. *)
Theorem rate_sign_follows_counter
    (now_ts : Q) (ping : option Q) (smp : Sample) (s : Monitor)
    (io last : NetIO) (t0 : Q) :
  net_io smp = Some io ->
  _last_net_io s = Some last -> _last_net_time s = Some t0 ->
  counters_ok io -> counters_ok last ->
  let info := fst (snapshot now_ts ping smp s) in
  let elapsed := py_max (1 # 1000000) (now_ts - t0) in
  let up := inject_Z (bytes_sent io - bytes_sent last) / elapsed in
  let down := inject_Z (bytes_recv io - bytes_recv last) / elapsed in
  net_upload_bps info = Some up /\ net_download_bps info = Some down /\
  ((bytes_sent last <= bytes_sent io)%Z -> 0 <= up) /\
  ((bytes_sent io < bytes_sent last)%Z -> up < 0) /\
  ((bytes_recv last <= bytes_recv io)%Z -> 0 <= down) /\
  ((bytes_recv io < bytes_recv last)%Z -> down < 0).
Proof.
  intros Hnet Hio Ht Hok Hok' info elapsed up down.
  pose proof (elapsed_positive now_ts t0) as Hpos.
  unfold elapsed_since in Hpos. fold elapsed in Hpos.
  assert (Hinfo : info = mkInfo smp (Some up) (Some down) ping).
  { unfold info, snapshot. rewrite Hnet.
    rewrite (net_rates_stored now_ts io last t0 s Hio Ht Hok Hok'). reflexivity. }
  rewrite Hinfo. cbn [net_upload_bps net_download_bps].
  split; [reflexivity|]. split; [reflexivity|].
  repeat split; intro H.
  - apply quotient_nonneg; [lia | exact Hpos].
  - apply quotient_negative; [lia | exact Hpos].
  - apply quotient_nonneg; [lia | exact Hpos].
  - apply quotient_negative; [lia | exact Hpos].
Qed.

Lemma rate_sign_follows_counter_witness :
  let info := fst (snapshot 11 None (reading 20 30 400 5200) seen_counters) in
  let elapsed := py_max (1 # 1000000) (11 - 10) in
  net_upload_bps info = Some (inject_Z (400 - 1000) / elapsed) /\
  net_download_bps info = Some (inject_Z (5200 - 5000) / elapsed) /\
  inject_Z (400 - 1000) / elapsed < 0.
Proof.
  pose proof (rate_sign_follows_counter 11 None (reading 20 30 400 5200)
                seen_counters (mkNetIO 400 5200) (mkNetIO 1000 5000) 10
                eq_refl eq_refl eq_refl) as H.
  cbv zeta in H.
  destruct H as [Hu [Hd [_ [Hneg _]]]].
  - split; split; vm_compute; intuition discriminate.
  - split; split; vm_compute; intuition discriminate.
  - split; [exact Hu|]. split; [exact Hd|]. apply Hneg. cbn. lia.
Defined.

(** C2, the claim fails: the first sample of a freshly built monitor
    publishes the numbers 0.0 and 0.0, not a pair of [None]. *)
Lemma first_sample_rates_are_numbers :
  _last_net_io default_monitor = None /\
  let info := fst (snapshot 10 None (reading 20 30 1000 5000) default_monitor) in
  (net_upload_bps info, net_download_bps info) = (Some 0, Some 0) /\
  (net_upload_bps info, net_download_bps info) <> (None, None).
Proof.
  split; [reflexivity|]. split; [reflexivity | discriminate].
Qed.

(** C2, amended.  When no previous counters are stored, both published
    rates are the number 0.0. *)
Theorem first_sample_rates_zero
    (now_ts : Q) (ping : option Q) (smp : Sample) (s : Monitor) :
  _last_net_io s = None \/ _last_net_time s = None ->
  let info := fst (snapshot now_ts ping smp s) in
  net_upload_bps info = Some 0 /\ net_download_bps info = Some 0.
Proof.
  intros Hnone info. unfold info, snapshot, net_rates.
  destruct (net_io smp) as [io|]; [|split; reflexivity].
  destruct Hnone as [H|H]; rewrite H.
  - split; reflexivity.
  - destruct (_last_net_io s); split; reflexivity.
Qed.

Lemma first_sample_rates_zero_witness :
  let info := fst (snapshot 10 None (reading 20 30 1000 5000) default_monitor) in
  net_upload_bps info = Some 0 /\ net_download_bps info = Some 0.
Proof.
  apply (first_sample_rates_zero 10 None (reading 20 30 1000 5000) default_monitor).
  left. reflexivity.
Defined.

(** ** Traces *)

Lemma notify_count_app (xs ys : list Event) :
  notify_count (xs ++ ys)%list = (notify_count xs + notify_count ys)%nat.
Proof. unfold notify_count. rewrite filter_app, length_app. reflexivity. Qed.

Lemma notify_count_log (s : Monitor) (msg : string) : notify_count (_log s msg) = 0%nat.
Proof. unfold _log. destruct (on_log s); reflexivity. Qed.

Lemma notify_count_publish (s : Monitor) (info : Info) :
  notify_count (publish s info) = 0%nat.
Proof. unfold publish. destruct (on_update s); reflexivity. Qed.

Lemma notify_count_send (env : ToastEnv) (title body : string) :
  notify_count (snd (send_windows_notification env title body)) = 1%nat.
Proof.
  unfold send_windows_notification.
  destruct (ENABLE_TOASTS env); [destruct (popen env)|]; reflexivity.
Qed.

Lemma notify_count_recover (cc cm : Z) (cpu mem : Q) (s : Monitor) :
  notify_count (snd (recover cc cm cpu mem s)) = 0%nat.
Proof.
  unfold recover.
  destruct (_alerting s && Qltb cpu (inject_Z cc) && Qltb mem (inject_Z cm));
    [apply notify_count_log | reflexivity].
Qed.

(** ** The firing condition *)

Lemma can_send_open (now : Z) (s : Monitor) :
  can_send now s = true <->
  (_last_alert s = None \/
   exists last, _last_alert s = Some last /\
     inject_Z (notify_interval_sec s) <= total_seconds (now - last)).
Proof.
  unfold can_send. destruct (_last_alert s) as [last|].
  - rewrite Qgeb_true. split.
    + intro H. right. exists last. split; [reflexivity | exact H].
    + intros [H|[l [Hl H]]]; [discriminate H|].
      injection Hl as <-. exact H.
  - split; [intros _; left; reflexivity | reflexivity].
Qed.

Lemma breach_true (cpu mem : Q) (s : Monitor) :
  breach cpu mem s = true <->
  (inject_Z (cpu_threshold s) <= cpu \/ inject_Z (mem_threshold s) <= mem).
Proof. unfold breach. rewrite orb_true_iff, !Qgeb_true. reflexivity. Qed.

Lemma zero_guard_true (cpu mem : Q) :
  Qleb cpu 0 && Qleb mem 0 = true <-> (cpu <= 0 /\ mem <= 0).
Proof. rewrite andb_true_iff, !Qleb_true. reflexivity. Qed.

(** The loop's three tests say what the specification's condition says. *)
Lemma fires_iff_alert_due (now : Z) (cpu mem : Q) (s : Monitor) :
  fires now cpu mem s = true <-> alert_due now cpu mem s.
Proof.
  unfold fires, alert_due.
  rewrite !andb_true_iff, negb_true_iff, breach_true, can_send_open.
  rewrite <- not_true_iff_false, zero_guard_true. tauto.
Qed.

Lemma trigger_reasons_breach
    (fmt_fixed : nat -> Q -> string) (cpu mem : Q) (s : Monitor) :
  trigger_reasons fmt_fixed cpu mem s = [] <-> breach cpu mem s = false.
Proof.
  unfold trigger_reasons, breach.
  destruct (Qgeb cpu (inject_Z (cpu_threshold s)));
    destruct (Qgeb mem (inject_Z (mem_threshold s)));
    cbn [app orb]; split; intro H; try reflexivity; discriminate H.
Qed.

(** When both thresholds are reached the two reasons go into one list, and
    so into the subject of one notification. *)
Lemma both_breaches_one_subject
    (fmt_fixed : nat -> Q -> string) (cpu mem : Q) (s : Monitor) :
  inject_Z (cpu_threshold s) <= cpu -> inject_Z (mem_threshold s) <= mem ->
  List.length (trigger_reasons fmt_fixed cpu mem s) = 2%nat.
Proof.
  intros Hc Hm. unfold trigger_reasons.
  apply Qgeb_true in Hc. apply Qgeb_true in Hm. rewrite Hc, Hm. reflexivity.
Qed.

Section NotificationFacts.

Variable isoformat : Z -> string.
Variable fmt_fixed : nat -> Q -> string.

(** The body is always built from the [info] the loop assembles. *)
Lemma build_body_ok (now : Z) (cpu mem : Q) (smp : Sample) (up down : Q)
    (ping : option Q) :
  exists body,
    build_body isoformat fmt_fixed now cpu mem (mkInfo smp (Some up) (Some down) ping)
    = Ok body.
Proof. unfold build_body. cbn [net_upload_bps net_download_bps]. eexists. reflexivity. Qed.

(** What the notification block does, by the value of [fires]. *)
Lemma evaluate_by_fires (now : Z) (env : ToastEnv) (smp : Sample) (up down : Q)
    (ping : option Q) (cpu mem : Q) (s : Monitor) :
  let info := mkInfo smp (Some up) (Some down) ping in
  exists evs,
    evaluate isoformat fmt_fixed now env info cpu mem s
    = ((if fires now cpu mem s then set_alert (Some now) true s else s), evs, None)
    /\ notify_count evs = (if fires now cpu mem s then 1%nat else 0%nat)
    /\ (breach cpu mem s = true -> Qleb cpu 0 && Qleb mem 0 = true ->
        evs = _log s suppressed_zero)
    /\ (breach cpu mem s = true -> Qleb cpu 0 && Qleb mem 0 = false ->
        can_send now s = false -> evs = _log s suppressed_rate).
Proof.
  intro info. unfold evaluate, fires.
  destruct (trigger_reasons fmt_fixed cpu mem s) as [|r rs] eqn:Hr.
  - apply trigger_reasons_breach in Hr. rewrite Hr. cbn [andb].
    exists []. repeat split; intros; discriminate.
  - assert (Hb : breach cpu mem s = true).
    { destruct (breach cpu mem s) eqn:Hb; [reflexivity|].
      apply (proj2 (trigger_reasons_breach fmt_fixed cpu mem s)) in Hb. congruence. }
    rewrite Hb. cbn [andb].
    destruct (Qleb cpu 0 && Qleb mem 0) eqn:Hz; cbn [negb andb].
    + eexists. split; [reflexivity|]. split; [apply notify_count_log|].
      split; intros; [reflexivity | discriminate].
    + destruct (can_send now s) eqn:Hc.
      * destruct (build_body_ok now cpu mem smp up down ping) as [body Hbody].
        fold info in Hbody. rewrite Hbody.
        pose proof (notify_count_send env
          ("Resource alert: " ++ concat ", " (r :: rs)) body) as Hn.
        destruct (send_windows_notification env
          ("Resource alert: " ++ concat ", " (r :: rs)) body) as [[success msg] sent].
        cbn [snd] in Hn.
        destruct success; eexists; (split; [reflexivity|]);
          (split; [rewrite notify_count_app, Hn, notify_count_log; reflexivity|]);
          split; intros; discriminate.
      * eexists. split; [reflexivity|]. split; [apply notify_count_log|].
        split; intros; [discriminate | reflexivity].
Qed.

End NotificationFacts.

(** ** One iteration, stage by stage *)

Lemma same_config_refl (s : Monitor) : same_config s s.
Proof. unfold same_config. repeat split. Qed.

Lemma same_config_trans (a b c : Monitor) :
  same_config a b -> same_config b c -> same_config a c.
Proof. unfold same_config. intuition congruence. Qed.

Lemma snapshot_shape (now_ts : Q) (ping : option Q) (smp : Sample) (s : Monitor) :
  exists up down,
    fst (snapshot now_ts ping smp s) = mkInfo smp (Some up) (Some down) ping.
Proof.
  unfold snapshot. destruct (net_io smp) as [io|].
  - destruct (net_rates now_ts io s) as [up down]. exists up, down. reflexivity.
  - exists 0, 0. reflexivity.
Qed.

(** The snapshot writes the two counter fields and nothing else. *)
Lemma snapshot_state (now_ts : Q) (ping : option Q) (smp : Sample) (s : Monitor) :
  snd (snapshot now_ts ping smp s) = s \/
  exists io, snd (snapshot now_ts ping smp s) = set_last_net (Some io) (Some now_ts) s.
Proof.
  unfold snapshot. destruct (net_io smp) as [io|].
  - right. exists io. destruct (net_rates now_ts io s). reflexivity.
  - left. reflexivity.
Qed.

Lemma recover_state (cc cm : Z) (cpu mem : Q) (s : Monitor) :
  fst (recover cc cm cpu mem s) =
    if _alerting s && Qltb cpu (inject_Z cc) && Qltb mem (inject_Z cm)
    then set_alert (_last_alert s) false s else s.
Proof.
  unfold recover.
  destruct (_alerting s && Qltb cpu (inject_Z cc) && Qltb mem (inject_Z cm));
    reflexivity.
Qed.

Section TickFacts.

Variable isoformat : Z -> string.
Variable fmt_fixed : nat -> Q -> string.


(** An iteration whose sample was read runs all its stages and ends
    normally. *)
Lemma tick_sampled (cc cm : Z) (inp : TickInput) (smp : Sample) (s : Monitor) :
  sample inp = Ok smp ->
  let cpu := cpu_percent smp in
  let mem := mem_percent smp in
  let info := fst (snapshot (now_ts inp) (ping inp) smp s) in
  let s1 := snd (snapshot (now_ts inp) (ping inp) smp s) in
  let s2 := if fires (now inp) cpu mem s1 then set_alert (Some (now inp)) true s1 else s1 in
  exists evs,
    evaluate isoformat fmt_fixed (now inp) (toasts inp) info cpu mem s1
      = (s2, evs, None) /\
    notify_count evs = (if fires (now inp) cpu mem s1 then 1%nat else 0%nat) /\
    (breach cpu mem s1 = true -> Qleb cpu 0 && Qleb mem 0 = true ->
     evs = _log s1 suppressed_zero) /\
    (breach cpu mem s1 = true -> Qleb cpu 0 && Qleb mem 0 = false ->
     can_send (now inp) s1 = false -> evs = _log s1 suppressed_rate) /\
    tick isoformat fmt_fixed cc cm inp s =
      (fst (recover cc cm cpu mem s2),
       (publish s1 info ++ evs ++ snd (recover cc cm cpu mem s2)
          ++ [EvSleep (interval (fst (recover cc cm cpu mem s2)))])%list,
       None).
Proof.
  intros Hs cpu mem info s1 s2.
  destruct (snapshot_shape (now_ts inp) (ping inp) smp s) as [up [down Hinfo]].
  fold info in Hinfo.
  destruct (evaluate_by_fires isoformat fmt_fixed (now inp) (toasts inp) smp up down
              (ping inp) cpu mem s1) as [evs [He [Hn [Hz Hr]]]].
  cbv zeta in He. rewrite <- Hinfo in He. fold s2 in He.
  exists evs. split; [exact He|]. split; [exact Hn|].
  split; [exact Hz|]. split; [exact Hr|].
  unfold tick. rewrite Hs.
  destruct (snapshot (now_ts inp) (ping inp) smp s) as [i1 m1] eqn:Hsnap.
  cbn [fst snd] in info, s1. subst info s1. fold cpu mem.
  rewrite He.
  destruct (recover cc cm cpu mem s2) as [s3 rec]. reflexivity.
Qed.

(** The firing condition reads nothing the snapshot writes. *)
Lemma snapshot_keeps_alert_fields (now_ts : Q) (ping : option Q) (smp : Sample) (s : Monitor) :
  let s1 := snd (snapshot now_ts ping smp s) in
  (forall now cpu mem, fires now cpu mem s1 = fires now cpu mem s) /\
  (forall cpu mem, breach cpu mem s1 = breach cpu mem s) /\
  (forall now, can_send now s1 = can_send now s) /\
  _last_alert s1 = _last_alert s /\ _alerting s1 = _alerting s /\
  (forall msg, _log s1 msg = _log s msg) /\ same_config s s1.
Proof.
  intro s1. unfold s1.
  destruct (snapshot_state now_ts ping smp s) as [H|[io H]]; rewrite H;
    repeat split.
Qed.

Lemma recover_config (cc cm : Z) (cpu mem : Q) (s : Monitor) :
  same_config s (fst (recover cc cm cpu mem s)) /\
  _last_alert (fst (recover cc cm cpu mem s)) = _last_alert s.
Proof.
  rewrite recover_state.
  destruct (_alerting s && Qltb cpu (inject_Z cc) && Qltb mem (inject_Z cm));
    repeat split.
Qed.

(** An iteration never touches the configuration. *)
Lemma tick_config (cc cm : Z) (inp : TickInput) (s : Monitor) :
  same_config s (final (tick isoformat fmt_fixed cc cm inp s)).
Proof.
  destruct (sample inp) as [smp|e] eqn:Hs.
  - destruct (tick_sampled cc cm inp smp s Hs) as [evs [_ [_ [_ [_ Ht]]]]].
    rewrite Ht. unfold final. cbn [fst].
    pose proof (snapshot_keeps_alert_fields (now_ts inp) (ping inp) smp s) as K.
    cbv zeta in K. destruct K as [_ [_ [_ [_ [_ [_ K]]]]]].
    eapply same_config_trans; [exact K|].
    eapply same_config_trans; [|apply recover_config].
    destruct (fires (now inp) (cpu_percent smp) (mem_percent smp)
                (snd (snapshot (now_ts inp) (ping inp) smp s))); repeat split.
  - unfold tick. rewrite Hs. apply same_config_refl.
Qed.


End TickFacts.

(** ** Alerting *)

Section Alerting.

Variable isoformat : Z -> string.
Variable fmt_fixed : nat -> Q -> string.

(** C3.  In an iteration whose sample was read, the notifier is called at
    most once, and exactly once precisely when a threshold is reached, the
    readings are not both at or below zero, and no alert was sent yet or the
    notify interval has passed since the last one.  Whatever the notifier
    returns, the notification block then leaves the last alert time at now
    and the alerting flag set, and the last alert time is still now when the
    iteration ends. *)
Theorem one_notification_iff_alert_due
    (cc cm : Z) (inp : TickInput) (smp : Sample) (s : Monitor) :
  sample inp = Ok smp ->
  let cpu := cpu_percent smp in
  let mem := mem_percent smp in
  let info := fst (snapshot (now_ts inp) (ping inp) smp s) in
  let s1 := snd (snapshot (now_ts inp) (ping inp) smp s) in
  let noted := evaluate isoformat fmt_fixed (now inp) (toasts inp) info cpu mem s1 in
  let ticked := tick isoformat fmt_fixed cc cm inp s in
  escaped ticked = None /\
  (notify_count (trace ticked) <= 1)%nat /\
  (notify_count (trace ticked) = 1%nat <-> alert_due (now inp) cpu mem s) /\
  (alert_due (now inp) cpu mem s ->
     _last_alert (final noted) = Some (now inp) /\
     _alerting (final noted) = true /\
     _last_alert (final ticked) = Some (now inp)).
Proof.
  intros Hs cpu mem info s1 noted ticked.
  destruct (tick_sampled isoformat fmt_fixed cc cm inp smp s Hs)
    as [evs [He [Hn [_ [_ Ht]]]]].
  fold cpu mem info s1 in He, Hn, Ht. fold noted in He. fold ticked in Ht.
  pose proof (snapshot_keeps_alert_fields (now_ts inp) (ping inp) smp s) as K.
  cbv zeta in K. fold s1 in K. destruct K as [Kf _].
  rewrite Kf in He, Hn, Ht.
  assert (Hcount : notify_count (trace ticked) =
                   if fires (now inp) cpu mem s then 1%nat else 0%nat).
  { rewrite Ht. unfold trace. cbn [fst snd].
    rewrite !notify_count_app, notify_count_publish, notify_count_recover, Hn.
    cbn. lia. }
  pose proof (fires_iff_alert_due (now inp) cpu mem s) as G.
  split; [rewrite Ht; reflexivity|].
  split; [rewrite Hcount; destruct (fires (now inp) cpu mem s); lia|].
  split.
  - rewrite Hcount. destruct (fires (now inp) cpu mem s).
    + split; [intros _; apply G; reflexivity | reflexivity].
    + split; [discriminate|]. intro H. apply G in H. discriminate H.
  - intro H. apply G in H. rewrite H in He, Ht.
    rewrite He, Ht. unfold final. cbn [fst].
    split; [reflexivity|]. split; [reflexivity|].
    destruct (recover_config cc cm cpu mem (set_alert (Some (now inp)) true s1))
      as [_ Hl].
    rewrite Hl. reflexivity.
Qed.

(** C5.  When a threshold is reached while both readings are at or below
    zero, the notification block only writes the suppression line to the
    log, leaves the monitor as it was, and the iteration calls the notifier
    zero times. *)
Theorem zero_readings_never_notify
    (cc cm : Z) (inp : TickInput) (smp : Sample) (s : Monitor) :
  sample inp = Ok smp ->
  let cpu := cpu_percent smp in
  let mem := mem_percent smp in
  let info := fst (snapshot (now_ts inp) (ping inp) smp s) in
  let s1 := snd (snapshot (now_ts inp) (ping inp) smp s) in
  inject_Z (cpu_threshold s) <= cpu \/ inject_Z (mem_threshold s) <= mem ->
  cpu <= 0 -> mem <= 0 ->
  evaluate isoformat fmt_fixed (now inp) (toasts inp) info cpu mem s1
    = (s1, _log s suppressed_zero, None) /\
  notify_count (trace (tick isoformat fmt_fixed cc cm inp s)) = 0%nat.
Proof.
  intros Hs cpu mem info s1 Hb Hc Hm.
  destruct (tick_sampled isoformat fmt_fixed cc cm inp smp s Hs)
    as [evs [He [Hn [Hz [_ Ht]]]]].
  fold cpu mem info s1 in He, Hn, Hz, Ht.
  pose proof (snapshot_keeps_alert_fields (now_ts inp) (ping inp) smp s) as K.
  cbv zeta in K. fold s1 in K. destruct K as [Kf [Kb [_ [_ [_ [Kl _]]]]]].
  rewrite Kf in He, Hn, Ht. rewrite Kb in Hz.
  assert (Hguard : Qleb cpu 0 && Qleb mem 0 = true).
  { apply zero_guard_true. split; assumption. }
  assert (Hf : fires (now inp) cpu mem s = false).
  { unfold fires. rewrite Hguard. cbn [negb]. rewrite andb_false_r. reflexivity. }
  rewrite Hf in He, Hn, Ht.
  apply breach_true in Hb. specialize (Hz Hb Hguard).
  split.
  - rewrite He, Hz, Kl. reflexivity.
  - rewrite Ht. unfold trace. cbn [fst snd].
    rewrite !notify_count_app, notify_count_publish, notify_count_recover, Hn.
    reflexivity.
Qed.

(** C10.  When a threshold is reached but the alert is held back, by the
    zero guard or because the notify interval has not passed since the last
    alert, the notification block returns the monitor it was given: the
    last alert time and the alerting flag are what they were before the
    iteration, and the notifier is not called. *)
Theorem suppressed_breach_keeps_alert_state
    (inp : TickInput) (smp : Sample) (s : Monitor) :
  sample inp = Ok smp ->
  let cpu := cpu_percent smp in
  let mem := mem_percent smp in
  let info := fst (snapshot (now_ts inp) (ping inp) smp s) in
  let s1 := snd (snapshot (now_ts inp) (ping inp) smp s) in
  let noted := evaluate isoformat fmt_fixed (now inp) (toasts inp) info cpu mem s1 in
  inject_Z (cpu_threshold s) <= cpu \/ inject_Z (mem_threshold s) <= mem ->
  (cpu <= 0 /\ mem <= 0) \/
  (exists last, _last_alert s = Some last /\
     total_seconds (now inp - last) < inject_Z (notify_interval_sec s)) ->
  final noted = s1 /\
  _last_alert (final noted) = _last_alert s /\
  _alerting (final noted) = _alerting s /\
  notify_count (trace noted) = 0%nat /\
  (trace noted = _log s suppressed_zero \/ trace noted = _log s suppressed_rate).
Proof.
  intros Hs cpu mem info s1 noted Hb Hsup.
  destruct (tick_sampled isoformat fmt_fixed 0 0 inp smp s Hs)
    as [evs [He [Hn [Hz [Hr _]]]]].
  fold cpu mem info s1 in He, Hn, Hz, Hr. fold noted in He.
  pose proof (snapshot_keeps_alert_fields (now_ts inp) (ping inp) smp s) as K.
  cbv zeta in K. fold s1 in K. destruct K as [Kf [Kb [Kc [Ka [Kg [Kl _]]]]]].
  rewrite Kf in He, Hn. rewrite Kb in Hz, Hr. rewrite Kc in Hr.
  apply breach_true in Hb.
  assert (Hf : fires (now inp) cpu mem s = false /\
               (evs = _log s suppressed_zero \/ evs = _log s suppressed_rate)).
  { unfold fires. rewrite Hb. cbn [andb].
    destruct (Qleb cpu 0 && Qleb mem 0) eqn:Hguard.
    - split; [reflexivity|]. left. rewrite (Hz Hb eq_refl). apply Kl.
    - destruct Hsup as [Hzero|[last [Hl Hw]]].
      + apply zero_guard_true in Hzero. congruence.
      + assert (Hc : can_send (now inp) s = false).
        { unfold can_send. rewrite Hl. unfold Qgeb.
          destruct (Qle_bool (inject_Z (notify_interval_sec s))
                      (total_seconds (now inp - last))) eqn:E; [|reflexivity].
          apply Qle_bool_iff in E. exfalso. exact (Qlt_not_le _ _ Hw E). }
        rewrite Hc. split; [reflexivity|]. right.
        rewrite (Hr Hb eq_refl Hc). apply Kl. }
  destruct Hf as [Hf Hevs]. rewrite Hf in He, Hn.
  rewrite He. unfold final, trace. cbn [fst snd].
  repeat split; assumption.
Qed.

End Alerting.

(** ** Hysteresis *)

(** For a reading that is not negative, the clamp at zero in the clear
    threshold cannot be seen. *)
Lemma clear_clamp_invisible (x : Q) (t : Z) :
  0 <= x -> (Qltb x (inject_Z (Z.max 0 t)) = true <-> x < inject_Z t).
Proof.
  intro Hx. rewrite Qltb_true.
  destruct (Z.max_spec 0 t) as [[Hlt Hm]|[Hle Hm]]; rewrite Hm; [reflexivity|].
  rewrite Zle_Qle in Hle. change (inject_Z 0) with 0 in *.
  split; intro H; exfalso; lra.
Qed.

Lemma below_margin_not_breach (x : Q) (t : Z) :
  x < inject_Z (t - 15) -> ~ inject_Z t <= x.
Proof.
  intros H Hle.
  assert (Hm : inject_Z (t - 15) <= inject_Z t) by (rewrite <- Zle_Qle; lia).
  lra.
Qed.

Section Hysteresis.

Variable isoformat : Z -> string.
Variable fmt_fixed : nat -> Q -> string.




(** After a notification the flag is still set when the iteration ends,
    for readings that are not negative and clear thresholds taken from the
    monitor's own thresholds: the recovery test cannot pass in an iteration
    that reached a threshold. *)
Lemma alert_flag_survives_iteration
    (inp : TickInput) (smp : Sample) (s : Monitor) :
  let cpu := cpu_percent smp in
  let mem := mem_percent smp in
  sample inp = Ok smp -> 0 <= cpu -> 0 <= mem ->
  alert_due (now inp) cpu mem s ->
  _alerting
    (final (tick isoformat fmt_fixed (clear_threshold (cpu_threshold s))
              (clear_threshold (mem_threshold s)) inp s)) = true.
Proof.
  intros cpu mem Hs Hcpu Hmem Hopen.
  destruct (tick_sampled isoformat fmt_fixed (clear_threshold (cpu_threshold s))
              (clear_threshold (mem_threshold s)) inp smp s Hs)
    as [evs [_ [_ [_ [_ Ht]]]]].
  fold cpu mem in Ht.
  pose proof (snapshot_keeps_alert_fields (now_ts inp) (ping inp) smp s) as K.
  cbv zeta in K. destruct K as [Kf _]. rewrite Kf in Ht.
  pose proof Hopen as Hf. apply fires_iff_alert_due in Hf. rewrite Hf in Ht.
  rewrite Ht. unfold final. cbn [fst]. rewrite recover_state.
  cbn [set_alert _alerting andb].
  destruct (Qltb cpu (inject_Z (clear_threshold (cpu_threshold s)))) eqn:Ec;
    [|reflexivity].
  destruct (Qltb mem (inject_Z (clear_threshold (mem_threshold s)))) eqn:Em;
    [|reflexivity].
  exfalso. unfold clear_threshold in Ec, Em.
  apply (clear_clamp_invisible cpu _ Hcpu) in Ec.
  apply (clear_clamp_invisible mem _ Hmem) in Em.
  destruct Hopen as [[Hb|Hb] _].
  - exact (below_margin_not_breach _ _ Ec Hb).
  - exact (below_margin_not_breach _ _ Em Hb).
Qed.

End Hysteresis.

(** ** The observer *)

Lemma snapshot_observer (o : option (Info -> outcome unit))
    (now_ts : Q) (ping : option Q) (smp : Sample) (s : Monitor) :
  snapshot now_ts ping smp (with_observer o s) =
    (fst (snapshot now_ts ping smp s),
     with_observer o (snd (snapshot now_ts ping smp s))).
Proof.
  unfold snapshot. destruct (net_io smp) as [io|]; [|reflexivity].
  change (net_rates now_ts io (with_observer o s)) with (net_rates now_ts io s).
  destruct (net_rates now_ts io s). reflexivity.
Qed.

Lemma recover_observer (o : option (Info -> outcome unit))
    (cc cm : Z) (cpu mem : Q) (s : Monitor) :
  recover cc cm cpu mem (with_observer o s) =
    (with_observer o (fst (recover cc cm cpu mem s)), snd (recover cc cm cpu mem s)).
Proof.
  unfold recover. cbn [with_observer _alerting].
  destruct (_alerting s && Qltb cpu (inject_Z cc) && Qltb mem (inject_Z cm));
    reflexivity.
Qed.

(** Whatever the callback returns or raises, publishing is one call. *)
Lemma publish_registered (f : Info -> outcome unit) (s : Monitor) (info : Info) :
  publish (with_observer (Some f) s) info = [EvUpdate info].
Proof. reflexivity. Qed.

Section Observer.

Variable isoformat : Z -> string.
Variable fmt_fixed : nat -> Q -> string.

Lemma evaluate_observer (o : option (Info -> outcome unit))
    (now : Z) (env : ToastEnv) (info : Info) (cpu mem : Q) (s : Monitor) :
  let r := evaluate isoformat fmt_fixed now env info cpu mem s in
  evaluate isoformat fmt_fixed now env info cpu mem (with_observer o s) =
    (with_observer o (final r), trace r, escaped r).
Proof.
  intro r. unfold r, evaluate.
  change (trigger_reasons fmt_fixed cpu mem (with_observer o s))
    with (trigger_reasons fmt_fixed cpu mem s).
  change (can_send now (with_observer o s)) with (can_send now s).
  destruct (trigger_reasons fmt_fixed cpu mem s) as [|r1 rs]; [reflexivity|].
  destruct (Qleb cpu 0 && Qleb mem 0); [reflexivity|].
  destruct (can_send now s); [|reflexivity].
  destruct (build_body isoformat fmt_fixed now cpu mem info) as [body|e];
    [|reflexivity].
  destruct (send_windows_notification env
              ("Resource alert: " ++ concat ", " (r1 :: rs)) body)
    as [[success msg] sent].
  destruct success; reflexivity.
Qed.

(** One iteration with observer [f] registered is the iteration with
    observer [g] registered, in every respect but the registered callback. *)
Lemma tick_observer (f g : Info -> outcome unit)
    (cc cm : Z) (inp : TickInput) (s : Monitor) :
  let r := tick isoformat fmt_fixed cc cm inp (with_observer (Some g) s) in
  tick isoformat fmt_fixed cc cm inp (with_observer (Some f) s) =
    (with_observer (Some f) (final r), trace r, escaped r).
Proof.
  intro r. unfold r, tick. destruct (sample inp) as [smp|e]; [|reflexivity].
  rewrite !snapshot_observer.
  set (info := fst (snapshot (now_ts inp) (ping inp) smp s)).
  set (s1 := snd (snapshot (now_ts inp) (ping inp) smp s)).
  rewrite !publish_registered.
  rewrite (evaluate_observer (Some f)), (evaluate_observer (Some g)).
  destruct (evaluate isoformat fmt_fixed (now inp) (toasts inp) info
              (cpu_percent smp) (mem_percent smp) s1) as [[s2 evs] [e|]];
    unfold final, trace, escaped; cbn [fst snd]; [reflexivity|].
  rewrite !recover_observer.
  destruct (recover cc cm (cpu_percent smp) (mem_percent smp) s2) as [s3 rec].
  reflexivity.
Qed.

Lemma with_observer_same (g : Info -> outcome unit) (s : Monitor) :
  on_update s = Some g -> with_observer (Some g) s = s.
Proof. destruct s. cbn. intros ->. reflexivity. Qed.

Lemma run_loop_observer (f g : Info -> outcome unit) (cc cm : Z)
    (inps : list TickInput) :
  forall s, on_update s = Some g ->
    let r := run_loop isoformat fmt_fixed cc cm inps s in
    run_loop isoformat fmt_fixed cc cm inps (with_observer (Some f) s) =
      (with_observer (Some f) (final r), trace r, escaped r).
Proof.
  induction inps as [|inp rest IH]; intros s Hg; cbn [run_loop]; [reflexivity|].
  change (_running (with_observer (Some f) s)) with (_running s).
  destruct (_running s); [|reflexivity].
  pose proof (tick_observer f g cc cm inp s) as Ht. cbv zeta in Ht.
  rewrite (with_observer_same g s Hg) in Ht. rewrite Ht.
  pose proof (tick_config isoformat fmt_fixed cc cm inp s) as Hcfg.
  destruct (tick isoformat fmt_fixed cc cm inp s) as [[s' evs] [e|]];
    unfold final, trace, escaped in *; cbn [fst snd] in *; [reflexivity|].
  assert (Hg' : on_update s' = Some g).
  { destruct Hcfg as [_ [_ [_ [_ [Hu _]]]]]. rewrite Hu. exact Hg. }
  rewrite (IH s' Hg').
  destruct (run_loop isoformat fmt_fixed cc cm rest s') as [[s'' evs'] r].
  reflexivity.
Qed.

(** While every sample can be read, nothing leaves the loop body. *)
Lemma run_loop_sampled (cc cm : Z) (inps : list TickInput) :
  Forall (fun inp => exists smp, sample inp = Ok smp) inps ->
  forall s, escaped (run_loop isoformat fmt_fixed cc cm inps s) = None.
Proof.
  induction 1 as [|inp rest [smp Hs] _ IH]; intro s; cbn [run_loop]; [reflexivity|].
  destruct (_running s); [|reflexivity].
  destruct (tick_sampled isoformat fmt_fixed cc cm inp smp s Hs)
    as [evs [_ [_ [_ [_ Ht]]]]].
  rewrite Ht. specialize (IH (fst (recover cc cm (cpu_percent smp) (mem_percent smp)
    (if fires (now inp) (cpu_percent smp) (mem_percent smp)
          (snd (snapshot (now_ts inp) (ping inp) smp s))
     then set_alert (Some (now inp)) true
            (snd (snapshot (now_ts inp) (ping inp) smp s))
     else snd (snapshot (now_ts inp) (ping inp) smp s))))).
  destruct (run_loop isoformat fmt_fixed cc cm rest _) as [[s'' evs'] r].
  exact IH.
Qed.

(** C7, amended.  Register any observer [f], for instance one that raises on
    every call, in place of any other observer [g], for instance one that
    never raises.  Over any number of iterations the loop then produces the
    same effects in the same order (the same notifier calls and the same log
    lines, so nothing is logged for the exception), ends or goes on in the
    same way, and reaches the same monitor but for the registered callback;
    and while every sample can be read no exception leaves the loop. *)
Theorem observer_exception_is_contained
    (f g : Info -> outcome unit) (cc cm : Z) (inps : list TickInput) (s : Monitor) :
  let failing := run_loop isoformat fmt_fixed cc cm inps (with_observer (Some f) s) in
  let quiet := run_loop isoformat fmt_fixed cc cm inps (with_observer (Some g) s) in
  trace failing = trace quiet /\
  escaped failing = escaped quiet /\
  final failing = with_observer (Some f) (final quiet) /\
  (Forall (fun inp => exists smp, sample inp = Ok smp) inps ->
   escaped failing = None).
Proof.
  intros failing quiet.
  pose proof (run_loop_observer f g cc cm inps (with_observer (Some g) s) eq_refl)
    as H.
  cbv zeta in H. fold quiet in H.
  change (with_observer (Some f) (with_observer (Some g) s))
    with (with_observer (Some f) s) in H.
  fold failing in H. rewrite H. unfold trace, escaped, final. cbn [fst snd].
  repeat split.
  intro Hall. apply (run_loop_sampled cc cm inps Hall).
Qed.

End Observer.

(** C7, the claim fails on its logging part: with an observer that raises
    and readings below both thresholds, the iteration ends normally and its
    whole trace is the observer call and the sleep; no log line is written,
    through the callback or on the console. *)
Lemma observer_exception_is_not_logged :
  let ticked := tick plain_iso plain_fixed 75 55 (at_second 10 20 30) watched_monitor in
  failing_observer (fst (snapshot 10 None (reading 20 30 1000 5000) watched_monitor))
    = Raise (OtherException "observer failed") /\
  escaped ticked = None /\
  List.filter is_log (trace ticked) = [] /\
  List.length (trace ticked) = 2%nat.
Proof. repeat split. Qed.

Lemma observer_exception_is_contained_witness :
  let failing :=
    run_loop plain_iso plain_fixed 75 55 [at_second 10 95 50; at_second 11 96 50]
      (with_observer (Some failing_observer) running_monitor) in
  let quiet :=
    run_loop plain_iso plain_fixed 75 55 [at_second 10 95 50; at_second 11 96 50]
      (with_observer (Some quiet_observer) running_monitor) in
  trace failing = trace quiet /\ escaped failing = None.
Proof.
  pose proof (observer_exception_is_contained plain_iso plain_fixed
                failing_observer quiet_observer 75 55
                [at_second 10 95 50; at_second 11 96 50] running_monitor) as H.
  cbv zeta in H. destruct H as [Ht [_ [_ Hn]]].
  split; [exact Ht|]. apply Hn.
  repeat constructor; eexists; reflexivity.
Defined.

(** ** Construction *)

(** On an int or a finite float, [int(..)] succeeds and truncates. *)
Lemma py_int_finite (x : PyNum) : finite_number x -> py_int x = Ok (truncated x).
Proof. destruct x; cbn; intro H; try reflexivity; contradiction. Qed.


(** C8, the claim fails: thresholds of -40 and 250, an interval of 0 and a
    notify interval of -3 are all accepted; the constructor returns a
    monitor, with both intervals raised to 1. *)
Lemma invalid_configuration_is_accepted :
  __init__ (-40) 250 (PInt 0) (PInt 5) (PInt (-3)) None None None "8.8.8.8"
  = Ok {| cpu_threshold := -40;
          mem_threshold := 250;
          interval := 1;
          rate_limit_sec := 300;
          notify_interval_sec := 1;
          email_cfg := [];
          on_update := None;
          on_log := None;
          _running := false;
          _thread := None;
          _last_alert := None;
          _alerting := false;
          _last_net_io := None;
          _last_net_time := None;
          ping_host := "8.8.8.8" |}.
Proof. reflexivity. Qed.

(** C8, amended.  For all thresholds and for every interval, rate limit
    and notify interval that is an int or a finite float, the constructor
    returns a monitor and raises nothing: the thresholds are stored as
    given, unchecked, and the interval and the notify interval are the
    values [int(..)] gives, raised to at least 1.  The monitor starts
    stopped, idle, with no alert time and no counters. *)
Theorem constructor_clamps_intervals
    (cpu_thr mem_thr : Z) (interval_arg rate_limit_min notify_interval_arg : PyNum)
    (email : option (list (string * string)))
    (upd : option (Info -> outcome unit)) (log : option (string -> outcome unit))
    (host : string) :
  finite_number interval_arg ->
  finite_number rate_limit_min ->
  finite_number notify_interval_arg ->
  exists m,
    __init__ cpu_thr mem_thr interval_arg rate_limit_min notify_interval_arg
      email upd log host = Ok m /\
    cpu_threshold m = cpu_thr /\ mem_threshold m = mem_thr /\
    interval m = Z.max 1 (truncated interval_arg) /\
    notify_interval_sec m = Z.max 1 (truncated notify_interval_arg) /\
    (1 <= interval m)%Z /\ (1 <= notify_interval_sec m)%Z /\
    _running m = false /\ _alerting m = false /\ _last_alert m = None /\
    _last_net_io m = None /\ _last_net_time m = None.
Proof.
  intros Hi Hr Hn. unfold __init__.
  rewrite (py_int_finite _ Hi), (py_int_finite _ Hr), (py_int_finite _ Hn).
  eexists. split; [reflexivity|]. cbn.
  repeat split; try reflexivity; apply Z.le_max_l.
Qed.

Lemma constructor_clamps_intervals_witness :
  exists m,
    __init__ 90 70 (PInt 0) (PInt 5) (PFloat (-7 # 2)) None None None "8.8.8.8" = Ok m /\
    interval m = 1%Z /\ notify_interval_sec m = 1%Z.
Proof.
  destruct (constructor_clamps_intervals 90 70 (PInt 0) (PInt 5) (PFloat (-7 # 2))
              None None None "8.8.8.8" I I I)
    as [m [Hm [_ [_ [Hi [Hn _]]]]]].
  exists m. split; [exact Hm|]. split; [exact Hi | exact Hn].
Defined.

(** The constructor fails only where a conversion fails. *)
Lemma constructor_raises_on_nan :
  __init__ 90 70 PFloatNan (PInt 5) (PInt 10) None None None "8.8.8.8"
  = Raise ValueError.
Proof. reflexivity. Qed.

(** ** Lifecycle *)

(** C9.  On a running monitor [start] returns the monitor it was given and
    does nothing: no thread is started and nothing is logged.  So a second
    [start] after a first one changes nothing, and after [start] the monitor
    is running. *)
Theorem start_is_idempotent (s : Monitor) :
  (_running s = true -> start s = (s, [])) /\
  start (fst (start s)) = (fst (start s), []) /\
  _running (fst (start s)) = true.
Proof.
  unfold start. destruct (_running s) eqn:Hr.
  - cbn [fst]. rewrite Hr. repeat split.
  - cbn [fst set_running _running]. repeat split. discriminate.
Qed.

Lemma start_is_idempotent_witness :
  start running_monitor = (running_monitor, []).
Proof.
  apply (proj1 (start_is_idempotent running_monitor)). reflexivity.
Defined.

(** ** The theorems at concrete iterations *)

Lemma one_notification_iff_alert_due_witness :
  let ticked := tick plain_iso plain_fixed 75 55 (at_second 10 95 50) running_monitor in
  escaped ticked = None /\
  (notify_count (trace ticked) <= 1)%nat /\
  (notify_count (trace ticked) = 1%nat <-> alert_due 10000000 95 50 running_monitor).
Proof.
  pose proof (one_notification_iff_alert_due plain_iso plain_fixed 75 55
                (at_second 10 95 50) (reading 95 50 1000 5000) running_monitor
                eq_refl) as H.
  cbv zeta in H. destruct H as [H1 [H2 [H3 _]]].
  split; [exact H1|]. split; [exact H2 | exact H3].
Defined.

Lemma zero_readings_never_notify_witness :
  notify_count (trace (tick plain_iso plain_fixed 0 0 (at_second 10 0 0) hair_trigger))
  = 0%nat.
Proof.
  refine (proj2 (zero_readings_never_notify plain_iso plain_fixed 0 0
                   (at_second 10 0 0) (reading 0 0 1000 5000) hair_trigger
                   eq_refl _ _ _)).
  - left. apply Qle_bool_imp_le. reflexivity.
  - apply Qle_bool_imp_le. reflexivity.
  - apply Qle_bool_imp_le. reflexivity.
Defined.

Lemma suppressed_breach_keeps_alert_state_witness :
  let info := fst (snapshot 12 None (reading 96 50 1000 5000) alerted_monitor) in
  let s1 := snd (snapshot 12 None (reading 96 50 1000 5000) alerted_monitor) in
  let noted := evaluate plain_iso plain_fixed 12000000 console_only info 96 50 s1 in
  _last_alert (final noted) = Some 10000000%Z /\ _alerting (final noted) = true.
Proof.
  pose proof (suppressed_breach_keeps_alert_state plain_iso plain_fixed
                (at_second 12 96 50) (reading 96 50 1000 5000) alerted_monitor
                eq_refl) as H.
  cbv zeta in H.
  assert (Hb : inject_Z (cpu_threshold alerted_monitor) <= 96 \/
               inject_Z (mem_threshold alerted_monitor) <= 50).
  { left. apply Qle_bool_imp_le. reflexivity. }
  assert (Hw : (96 <= 0 /\ 50 <= 0) \/
               (exists last, _last_alert alerted_monitor = Some last /\
                  total_seconds (now (at_second 12 96 50) - last)
                  < inject_Z (notify_interval_sec alerted_monitor))).
  { right. exists 10000000%Z. split; reflexivity. }
  destruct (H Hb Hw) as [_ [Hl [Ha _]]].
  split; [exact Hl | exact Ha].
Defined.



(** The scenario of the specification: thresholds 90 / 70, a sample with
    cpu 95 raises one alert, a sample with cpu 96 one second later raises
    none, and a sample with cpu 70 and memory 50 clears the flag with no
    notifier call. *)
Example alert_then_quiet_then_recover :
  let r1 := _loop plain_iso plain_fixed [at_second 10 95 50] running_monitor in
  let r2 := _loop plain_iso plain_fixed
              [at_second 10 95 50; at_second 11 96 50] running_monitor in
  let r3 := _loop plain_iso plain_fixed
              [at_second 10 95 50; at_second 11 96 50; at_second 12 70 50]
              running_monitor in
  (notify_count (trace r1) = 1%nat /\ _alerting (final r1) = true) /\
  (notify_count (trace r2) = 1%nat /\ _alerting (final r2) = true) /\
  (notify_count (trace r3) = 1%nat /\ _alerting (final r3) = false).
Proof. repeat split. Qed.

(** The end-to-end scenario: cpu threshold 50, readings 60 / 10 once a
    second.  The alert is raised at the first iteration, held back for the
    next nine and raised again at the eleventh second. *)
Example alert_repeats_after_notify_interval :
  let s := mkMonitor 50 70 1 300 10 [] None None true (Some (LoopThread true))
             None false None None "8.8.8.8" in
  let seconds := [1; 2; 3; 4; 5; 6; 7; 8; 9; 10]%Z in
  let first_ten := List.map (fun t => at_second t 60 10) seconds in
  notify_count (trace (_loop plain_iso plain_fixed first_ten s)) = 1%nat /\
  notify_count
    (trace (_loop plain_iso plain_fixed (first_ten ++ [at_second 11 60 10])%list s))
  = 2%nat.
Proof. split; vm_compute; reflexivity. Qed.

(** ** The loop over many iterations *)

Lemma total_seconds_below (d n : Z) :
  (d < n * 1000000)%Z -> total_seconds d < inject_Z n.
Proof.
  intro H. unfold total_seconds.
  apply Qlt_shift_div_r; [reflexivity|].
  rewrite <- inject_Z_mult, <- Zlt_Qlt. exact H.
Qed.

(** Inside the notify interval the rate limit holds the alert back. *)
Lemma can_send_closed (now last : Z) (s : Monitor) :
  _last_alert s = Some last ->
  (now - last < notify_interval_sec s * 1000000)%Z ->
  can_send now s = false.
Proof.
  intros Hl Hw. unfold can_send. rewrite Hl. unfold Qgeb.
  destruct (Qle_bool (inject_Z (notify_interval_sec s)) (total_seconds (now - last)))
    eqn:E; [|reflexivity].
  apply Qle_bool_iff in E. exfalso.
  exact (Qlt_not_le _ _ (total_seconds_below _ _ Hw) E).
Qed.

Lemma fires_needs_can_send (now : Z) (cpu mem : Q) (s : Monitor) :
  can_send now s = false -> fires now cpu mem s = false.
Proof. intro H. unfold fires. rewrite H. apply andb_false_r. Qed.

Section Loop.

Variable isoformat : Z -> string.
Variable fmt_fixed : nat -> Q -> string.

(** The alert bookkeeping of one iteration, whatever its input. *)
Lemma tick_alert_summary (cc cm : Z) (inp : TickInput) (s : Monitor) :
  let r := tick isoformat fmt_fixed cc cm inp s in
  match sample inp with
  | Ok smp =>
      let fired := fires (now inp) (cpu_percent smp) (mem_percent smp) s in
      notify_count (trace r) = (if fired then 1%nat else 0%nat) /\
      _last_alert (final r) = (if fired then Some (now inp) else _last_alert s) /\
      (_alerting (final r) = true -> fired = true \/ _alerting s = true) /\
      escaped r = None
  | Raise e => r = (s, [], Some e)
  end.
Proof.
  intro r. destruct (sample inp) as [smp|e] eqn:Hs.
  - destruct (tick_sampled isoformat fmt_fixed cc cm inp smp s Hs)
      as [evs [_ [Hn [_ [_ Ht]]]]].
    pose proof (snapshot_keeps_alert_fields (now_ts inp) (ping inp) smp s) as K.
    cbv zeta in K. destruct K as [Kf [_ [_ [Ka [Kg _]]]]].
    rewrite Kf in Hn, Ht. unfold r. rewrite Ht. cbv zeta.
    unfold trace, final, escaped. cbn [fst snd].
    set (cpu := cpu_percent smp) in *. set (mem := mem_percent smp) in *.
    set (s1 := snd (snapshot (now_ts inp) (ping inp) smp s)) in *.
    split.
    { rewrite !notify_count_app, notify_count_publish, notify_count_recover, Hn.
      destruct (fires (now inp) cpu mem s); reflexivity. }
    split.
    { destruct (recover_config cc cm cpu mem
                  (if fires (now inp) cpu mem s
                   then set_alert (Some (now inp)) true s1 else s1)) as [_ Hl].
      rewrite Hl. destruct (fires (now inp) cpu mem s); [reflexivity | exact Ka]. }
    split; [|reflexivity].
    rewrite recover_state.
    destruct (fires (now inp) cpu mem s); [intros _; left; reflexivity|].
    destruct (_alerting s1 && Qltb cpu (inject_Z cc) && Qltb mem (inject_Z cm)).
    + cbn. discriminate.
    + rewrite Kg. intro H. right. exact H.
  - unfold r, tick. rewrite Hs. reflexivity.
Qed.

(** X1.  An iteration that does not call the notifier leaves the last alert
    time as it was; one that does sets it to its own [now]. *)
Theorem last_alert_follows_notifier (cc cm : Z) (inp : TickInput) (s : Monitor) :
  let r := tick isoformat fmt_fixed cc cm inp s in
  (notify_count (trace r) = 0%nat -> _last_alert (final r) = _last_alert s) /\
  (notify_count (trace r) <> 0%nat -> _last_alert (final r) = Some (now inp)).
Proof.
  intro r. pose proof (tick_alert_summary cc cm inp s) as H. cbv zeta in H.
  fold r in H. destruct (sample inp) as [smp|e].
  - destruct H as [Hn [Hl _]]. rewrite Hn, Hl.
    destruct (fires (now inp) (cpu_percent smp) (mem_percent smp) s);
      split; intro; congruence.
  - rewrite H. unfold trace, final. cbn. split; [reflexivity | congruence].
Qed.

(** Once an alert time inside the window is stored, no iteration stamped
    inside the window notifies. *)
Lemma quiet_inside_window (cc cm lo hi : Z) (inps : list TickInput) :
  Forall (fun inp => (lo <= now inp <= hi)%Z) inps ->
  forall s last,
    _last_alert s = Some last -> (lo <= last <= hi)%Z ->
    (hi - lo < notify_interval_sec s * 1000000)%Z ->
    notify_count (trace (run_loop isoformat fmt_fixed cc cm inps s)) = 0%nat.
Proof.
  induction 1 as [|inp rest Hin _ IH]; intros s last Hl Hlast Hw; cbn [run_loop];
    [reflexivity|].
  destruct (_running s); [|reflexivity].
  pose proof (tick_alert_summary cc cm inp s) as H. cbv zeta in H.
  pose proof (tick_config isoformat fmt_fixed cc cm inp s) as Hcfg.
  destruct (sample inp) as [smp|e].
  - assert (Hf : fires (now inp) (cpu_percent smp) (mem_percent smp) s = false).
    { apply fires_needs_can_send. apply (can_send_closed _ last); [exact Hl | lia]. }
    rewrite Hf in H. destruct H as [Hn [Hl' [_ He]]].
    destruct (tick isoformat fmt_fixed cc cm inp s) as [[s' evs] esc].
    unfold trace, final, escaped in *. cbn [fst snd] in *. subst esc.
    destruct Hcfg as [_ [_ [_ [Hni _]]]].
    specialize (IH s' last (eq_trans Hl' Hl) Hlast).
    rewrite Hni in IH. specialize (IH Hw).
    destruct (run_loop isoformat fmt_fixed cc cm rest s') as [[s'' evs'] r].
    cbn [fst snd] in *. rewrite notify_count_app, Hn, IH. reflexivity.
  - rewrite H. reflexivity.
Qed.

(** X2.  Rate limit over a run: when the [now] stamps of a run of iterations
    all lie in a window shorter than the notify interval, the whole run calls
    the notifier at most once, whatever the readings and whatever the monitor
    was doing before. *)
Theorem one_notification_per_window (cc cm lo hi : Z) (inps : list TickInput)
    (s : Monitor) :
  Forall (fun inp => (lo <= now inp <= hi)%Z) inps ->
  (hi - lo < notify_interval_sec s * 1000000)%Z ->
  (notify_count (trace (run_loop isoformat fmt_fixed cc cm inps s)) <= 1)%nat.
Proof.
  intro Hall. revert s.
  induction Hall as [|inp rest Hin Hrest IH]; intros s Hw; cbn [run_loop];
    [cbn; lia|].
  destruct (_running s); [|cbn; lia].
  pose proof (tick_alert_summary cc cm inp s) as H. cbv zeta in H.
  pose proof (tick_config isoformat fmt_fixed cc cm inp s) as Hcfg.
  destruct (sample inp) as [smp|e].
  - destruct H as [Hn [Hl [_ He]]].
    pose proof (quiet_inside_window cc cm lo hi rest Hrest) as Q.
    destruct (tick isoformat fmt_fixed cc cm inp s) as [[s' evs] esc].
    unfold trace, final, escaped in *. cbn [fst snd] in *. subst esc.
    destruct Hcfg as [_ [_ [_ [Hni _]]]].
    specialize (IH s'). rewrite Hni in IH. specialize (IH Hw).
    specialize (Q s'). rewrite Hni in Q.
    destruct (fires (now inp) (cpu_percent smp) (mem_percent smp) s).
    + specialize (Q (now inp) Hl Hin Hw).
      destruct (run_loop isoformat fmt_fixed cc cm rest s') as [[s'' evs'] r].
      cbn [fst snd] in *. rewrite notify_count_app, Hn, Q. lia.
    + destruct (run_loop isoformat fmt_fixed cc cm rest s') as [[s'' evs'] r].
      cbn [fst snd] in *. rewrite notify_count_app, Hn. lia.
  - rewrite H. cbn. lia.
Qed.

(** X3.  The loop never leaves the alerting flag set without an alert time:
    if that holds of the monitor the loop starts from, as it does of every
    monitor the constructor returns, it holds of the monitor any run ends
    with. *)
Theorem alerting_has_alert_time (cc cm : Z) (inps : list TickInput) :
  forall s,
    (_alerting s = true -> _last_alert s <> None) ->
    _alerting (final (run_loop isoformat fmt_fixed cc cm inps s)) = true ->
    _last_alert (final (run_loop isoformat fmt_fixed cc cm inps s)) <> None.
Proof.
  induction inps as [|inp rest IH]; intros s Hinv; cbn [run_loop]; [exact Hinv|].
  destruct (_running s); [|exact Hinv].
  pose proof (tick_alert_summary cc cm inp s) as H. cbv zeta in H.
  destruct (sample inp) as [smp|e].
  - destruct H as [_ [Hl [Ha He]]].
    destruct (tick isoformat fmt_fixed cc cm inp s) as [[s' evs] esc].
    unfold trace, final, escaped in *. cbn [fst snd] in *. subst esc.
    assert (Hinv' : _alerting s' = true -> _last_alert s' <> None).
    { intro Hs'. rewrite Hl.
      destruct (fires (now inp) (cpu_percent smp) (mem_percent smp) s);
        [discriminate|].
      destruct (Ha Hs') as [Hf|Hal]; [discriminate Hf | exact (Hinv Hal)]. }
    specialize (IH s' Hinv').
    destruct (run_loop isoformat fmt_fixed cc cm rest s') as [[s'' evs'] r].
    exact IH.
  - rewrite H. exact Hinv.
Qed.

(** X4.  When an exception leaves the loop, the monitor it leaves behind is
    still marked running, so [start] on it does nothing: no new thread, no
    log line. *)
Theorem crashed_loop_blocks_start (cc cm : Z) (inps : list TickInput) :
  forall s e,
    escaped (run_loop isoformat fmt_fixed cc cm inps s) = Some e ->
    let dead := final (run_loop isoformat fmt_fixed cc cm inps s) in
    _running dead = true /\ start dead = (dead, []).
Proof.
  assert (Hrun : forall s e,
    escaped (run_loop isoformat fmt_fixed cc cm inps s) = Some e ->
    _running (final (run_loop isoformat fmt_fixed cc cm inps s)) = true).
  { induction inps as [|inp rest IH]; intros s e; cbn [run_loop];
      [discriminate|].
    destruct (_running s) eqn:Hr; [|discriminate].
    pose proof (tick_config isoformat fmt_fixed cc cm inp s) as Hcfg.
    destruct (tick isoformat fmt_fixed cc cm inp s) as [[s' evs] [e'|]].
    - intros _. destruct Hcfg as [_ [_ [_ [_ [_ [_ Hk]]]]]].
      unfold final in *. cbn [fst] in *. rewrite Hk. exact Hr.
    - specialize (IH s' e).
      destruct (run_loop isoformat fmt_fixed cc cm rest s') as [[s'' evs'] r].
      exact IH. }
  intros s e He dead. pose proof (Hrun s e He) as Hd. fold dead in Hd.
  split; [exact Hd|]. unfold start. rewrite Hd. reflexivity.
Qed.

End Loop.

(** ** Counters across samples *)

(** A sample with counters stores them, with its time. *)
Lemma snapshot_stores_counters
    (now_ts : Q) (ping : option Q) (smp : Sample) (io : NetIO) (s : Monitor) :
  net_io smp = Some io ->
  snd (snapshot now_ts ping smp s) = set_last_net (Some io) (Some now_ts) s.
Proof.
  intro H. unfold snapshot. rewrite H. destruct (net_rates now_ts io s). reflexivity.
Qed.

(** X5.  Two samples in a row, both with kernel counters: whatever was
    stored before, the second one publishes its counters minus the first
    one's, divided by the clamped time between the two, and stores its own
    counters and time for the next. *)
Theorem consecutive_snapshots_measure_each_other
    (t1 t2 : Q) (p1 p2 : option Q) (smp1 smp2 : Sample) (io1 io2 : NetIO)
    (s : Monitor) :
  net_io smp1 = Some io1 -> net_io smp2 = Some io2 ->
  counters_ok io1 -> counters_ok io2 ->
  let s1 := snd (snapshot t1 p1 smp1 s) in
  let second := snapshot t2 p2 smp2 s1 in
  net_upload_bps (fst second)
    = Some (inject_Z (bytes_sent io2 - bytes_sent io1) / elapsed_since t2 t1) /\
  net_download_bps (fst second)
    = Some (inject_Z (bytes_recv io2 - bytes_recv io1) / elapsed_since t2 t1) /\
  _last_net_io (snd second) = Some io2 /\ _last_net_time (snd second) = Some t2.
Proof.
  intros H1 H2 Hok1 Hok2 s1 second.
  assert (Hs1 : s1 = set_last_net (Some io1) (Some t1) s)
    by (apply snapshot_stores_counters; exact H1).
  unfold second, snapshot. rewrite H2.
  rewrite (net_rates_stored t2 io2 io1 t1 s1); [| rewrite Hs1; reflexivity ..
                                                | exact Hok2 | exact Hok1].
  repeat split.
Qed.

Lemma consecutive_snapshots_measure_each_other_witness :
  let s1 := snd (snapshot 10 None (reading 20 30 1000 5000) default_monitor) in
  net_upload_bps (fst (snapshot 12 None (reading 20 30 1600 5000) s1))
    = Some (inject_Z (1600 - 1000) / elapsed_since 12 10).
Proof.
  refine (proj1 (consecutive_snapshots_measure_each_other 10 12 None None
            (reading 20 30 1000 5000) (reading 20 30 1600 5000)
            (mkNetIO 1000 5000) (mkNetIO 1600 5000) default_monitor
            eq_refl eq_refl _ _)).
  - split; split; vm_compute; intuition discriminate.
  - split; split; vm_compute; intuition discriminate.
Defined.

(** X6.  A sample for which psutil reports no counters publishes 0.0 for
    both rates and keeps the stored counters and time, so the next sample
    with counters is measured against the last one that had them, over the
    whole gap. *)
Theorem sample_without_counters_is_skipped
    (t1 tg t3 : Q) (p1 pg p3 : option Q) (smp1 gap smp3 : Sample) (io1 io3 : NetIO)
    (s : Monitor) :
  net_io smp1 = Some io1 -> net_io gap = None -> net_io smp3 = Some io3 ->
  counters_ok io1 -> counters_ok io3 ->
  let s1 := snd (snapshot t1 p1 smp1 s) in
  let skipped := snapshot tg pg gap s1 in
  let third := snapshot t3 p3 smp3 (snd skipped) in
  net_upload_bps (fst skipped) = Some 0 /\
  net_download_bps (fst skipped) = Some 0 /\
  snd skipped = s1 /\
  net_upload_bps (fst third)
    = Some (inject_Z (bytes_sent io3 - bytes_sent io1) / elapsed_since t3 t1) /\
  net_download_bps (fst third)
    = Some (inject_Z (bytes_recv io3 - bytes_recv io1) / elapsed_since t3 t1).
Proof.
  intros H1 Hg H3 Hok1 Hok3 s1 skipped third.
  assert (Hskip : skipped = (mkInfo gap (Some 0) (Some 0) pg, s1)).
  { unfold skipped, snapshot. rewrite Hg. reflexivity. }
  unfold third. rewrite Hskip. cbn [fst snd net_upload_bps net_download_bps].
  assert (Hs1 : s1 = set_last_net (Some io1) (Some t1) s)
    by (apply snapshot_stores_counters; exact H1).
  unfold snapshot. rewrite H3.
  rewrite (net_rates_stored t3 io3 io1 t1 s1); [| rewrite Hs1; reflexivity ..
                                                | exact Hok3 | exact Hok1].
  repeat split.
Qed.

Lemma sample_without_counters_is_skipped_witness :
  let s1 := snd (snapshot 10 None (reading 20 30 1000 5000) default_monitor) in
  let skipped := snapshot 11 None (mkSample 0 20 30 30 None) s1 in
  net_upload_bps (fst (snapshot 12 None (reading 20 30 1600 5000) (snd skipped)))
    = Some (inject_Z (1600 - 1000) / elapsed_since 12 10).
Proof.
  refine (proj1 (proj2 (proj2 (proj2
            (sample_without_counters_is_skipped 10 11 12 None None None
               (reading 20 30 1000 5000) (mkSample 0 20 30 30 None)
               (reading 20 30 1600 5000) (mkNetIO 1000 5000) (mkNetIO 1600 5000)
               default_monitor eq_refl eq_refl eq_refl _ _))))).
  - split; split; vm_compute; intuition discriminate.
  - split; split; vm_compute; intuition discriminate.
Defined.

(** X7.  When the clock read by [time.time()] has not advanced by more than
    a microsecond since the stored sample (it stood still or stepped back),
    the divisor is the floor 1e-6 and the published rate is the counter
    difference times one million. *)
Theorem stalled_clock_scales_rate_by_million
    (now_ts : Q) (ping : option Q) (smp : Sample) (s : Monitor)
    (io last : NetIO) (t0 : Q) :
  net_io smp = Some io ->
  _last_net_io s = Some last -> _last_net_time s = Some t0 ->
  counters_ok io -> counters_ok last ->
  now_ts - t0 <= 1 # 1000000 ->
  let info := fst (snapshot now_ts ping smp s) in
  exists up down,
    net_upload_bps info = Some up /\ net_download_bps info = Some down /\
    up == inject_Z ((bytes_sent io - bytes_sent last) * 1000000) /\
    down == inject_Z ((bytes_recv io - bytes_recv last) * 1000000).
Proof.
  intros Hnet Hio Ht Hok Hok' Hstall info.
  assert (He : elapsed_since now_ts t0 = 1 # 1000000).
  { unfold elapsed_since, py_max.
    destruct (Qltb (1 # 1000000) (now_ts - t0)) eqn:E; [|reflexivity].
    apply Qltb_true in E. exfalso. exact (Qlt_not_le _ _ E Hstall). }
  unfold info, snapshot. rewrite Hnet.
  rewrite (net_rates_stored now_ts io last t0 s Hio Ht Hok Hok'), He.
  cbn [fst net_upload_bps net_download_bps].
  eexists. eexists. split; [reflexivity|]. split; [reflexivity|].
  split; rewrite inject_Z_mult; unfold Qdiv;
    change (/ (1 # 1000000)) with (inject_Z 1000000); reflexivity.
Qed.

Lemma stalled_clock_scales_rate_by_million_witness :
  exists up down,
    net_upload_bps (fst (snapshot 9 None (reading 20 30 1003 5000) seen_counters))
      = Some up /\
    net_download_bps (fst (snapshot 9 None (reading 20 30 1003 5000) seen_counters))
      = Some down /\
    up == inject_Z ((1003 - 1000) * 1000000) /\
    down == inject_Z ((5000 - 5000) * 1000000).
Proof.
  refine (stalled_clock_scales_rate_by_million 9 None (reading 20 30 1003 5000)
            seen_counters (mkNetIO 1003 5000) (mkNetIO 1000 5000) 10
            eq_refl eq_refl eq_refl _ _ _).
  - split; split; vm_compute; intuition discriminate.
  - split; split; vm_compute; intuition discriminate.
  - apply Qle_bool_imp_le. reflexivity.
Defined.

(** ** Delivery, publishing and stopping *)



Lemma update_count_app (xs ys : list Event) :
  update_count (xs ++ ys)%list = (update_count xs + update_count ys)%nat.
Proof. unfold update_count. rewrite filter_app, length_app. reflexivity. Qed.

Lemma update_count_log (s : Monitor) (msg : string) : update_count (_log s msg) = 0%nat.
Proof. unfold _log. destruct (on_log s); reflexivity. Qed.

Lemma update_count_send (env : ToastEnv) (title body : string) :
  update_count (snd (send_windows_notification env title body)) = 0%nat.
Proof.
  unfold send_windows_notification.
  destruct (ENABLE_TOASTS env); [destruct (popen env)|]; reflexivity.
Qed.

Lemma update_count_recover (cc cm : Z) (cpu mem : Q) (s : Monitor) :
  update_count (snd (recover cc cm cpu mem s)) = 0%nat.
Proof.
  unfold recover.
  destruct (_alerting s && Qltb cpu (inject_Z cc) && Qltb mem (inject_Z cm));
    [apply update_count_log | reflexivity].
Qed.

Section Publishing.

Variable isoformat : Z -> string.
Variable fmt_fixed : nat -> Q -> string.

Lemma update_count_evaluate (now : Z) (env : ToastEnv) (info : Info) (cpu mem : Q)
    (s : Monitor) :
  update_count (trace (evaluate isoformat fmt_fixed now env info cpu mem s)) = 0%nat.
Proof.
  unfold evaluate.
  destruct (trigger_reasons fmt_fixed cpu mem s) as [|r1 rs]; [reflexivity|].
  destruct (Qleb cpu 0 && Qleb mem 0); [apply update_count_log|].
  destruct (can_send now s); [|apply update_count_log].
  destruct (build_body isoformat fmt_fixed now cpu mem info) as [body|e];
    [|reflexivity].
  pose proof (update_count_send env
    ("Resource alert: " ++ concat ", " (r1 :: rs)) body) as Hn.
  destruct (send_windows_notification env
              ("Resource alert: " ++ concat ", " (r1 :: rs)) body)
    as [[success msg] sent].
  cbn [snd] in Hn.
  destruct success; unfold trace; cbn [fst snd];
    rewrite update_count_app, Hn, update_count_log; reflexivity.
Qed.

(** X9.  In an iteration whose sample was read, a registered observer is
    called exactly once, with the snapshot of that iteration, and before
    anything else the iteration does: every notifier call, log line and the
    sleep come after it.  Without an observer there is no such call. *)
Theorem observer_is_called_first_and_once
    (cc cm : Z) (inp : TickInput) (smp : Sample) (s : Monitor) :
  sample inp = Ok smp ->
  let info := fst (snapshot (now_ts inp) (ping inp) smp s) in
  let evs := trace (tick isoformat fmt_fixed cc cm inp s) in
  ((exists f, on_update s = Some f) ->
   exists rest, evs = EvUpdate info :: rest /\ update_count rest = 0%nat) /\
  (on_update s = None -> update_count evs = 0%nat).
Proof.
  intros Hs info evs.
  destruct (tick_sampled isoformat fmt_fixed cc cm inp smp s Hs)
    as [es [He [_ [_ [_ Ht]]]]].
  pose proof (snapshot_keeps_alert_fields (now_ts inp) (ping inp) smp s) as K.
  cbv zeta in K. destruct K as [_ [_ [_ [_ [_ [_ K]]]]]].
  destruct K as [_ [_ [_ [_ [Ku _]]]]].
  pose proof (update_count_evaluate (now inp) (toasts inp) info (cpu_percent smp)
    (mem_percent smp) (snd (snapshot (now_ts inp) (ping inp) smp s))) as Hev.
  fold info in He. rewrite He in Hev. unfold trace in Hev. cbn [fst snd] in Hev.
  unfold evs. rewrite Ht. unfold trace. cbn [fst snd]. fold info.
  unfold publish. rewrite Ku.
  split.
  - intros [f Hf]. rewrite Hf. cbn [app]. eexists. split; [reflexivity|].
    rewrite !update_count_app, Hev, update_count_recover. reflexivity.
  - intro Hn. rewrite Hn. cbn [app].
    rewrite !update_count_app, Hev, update_count_recover. reflexivity.
Qed.

Lemma evaluate_running (b : bool) (th : option Thread)
    (now : Z) (env : ToastEnv) (info : Info) (cpu mem : Q) (s : Monitor) :
  let r := evaluate isoformat fmt_fixed now env info cpu mem s in
  evaluate isoformat fmt_fixed now env info cpu mem (set_running b th s) =
    (set_running b th (final r), trace r, escaped r).
Proof.
  intro r. unfold r, evaluate.
  change (trigger_reasons fmt_fixed cpu mem (set_running b th s))
    with (trigger_reasons fmt_fixed cpu mem s).
  change (can_send now (set_running b th s)) with (can_send now s).
  destruct (trigger_reasons fmt_fixed cpu mem s) as [|r1 rs]; [reflexivity|].
  destruct (Qleb cpu 0 && Qleb mem 0); [reflexivity|].
  destruct (can_send now s); [|reflexivity].
  destruct (build_body isoformat fmt_fixed now cpu mem info) as [body|e];
    [|reflexivity].
  destruct (send_windows_notification env
              ("Resource alert: " ++ concat ", " (r1 :: rs)) body)
    as [[success msg] sent].
  destruct success; reflexivity.
Qed.

(** The loop body neither reads nor writes the running flag and the thread
    handle. *)
Lemma tick_running (b : bool) (th : option Thread)
    (cc cm : Z) (inp : TickInput) (s : Monitor) :
  let r := tick isoformat fmt_fixed cc cm inp s in
  tick isoformat fmt_fixed cc cm inp (set_running b th s) =
    (set_running b th (final r), trace r, escaped r).
Proof.
  intro r. unfold r, tick. destruct (sample inp) as [smp|e]; [|reflexivity].
  assert (Hsnap : snapshot (now_ts inp) (ping inp) smp (set_running b th s) =
    (fst (snapshot (now_ts inp) (ping inp) smp s),
     set_running b th (snd (snapshot (now_ts inp) (ping inp) smp s)))).
  { unfold snapshot. destruct (net_io smp) as [io|]; [|reflexivity].
    change (net_rates (now_ts inp) io (set_running b th s))
      with (net_rates (now_ts inp) io s).
    destruct (net_rates (now_ts inp) io s). reflexivity. }
  rewrite Hsnap.
  destruct (snapshot (now_ts inp) (ping inp) smp s) as [info s1]. cbn [fst snd].
  change (publish (set_running b th s1) info) with (publish s1 info).
  rewrite evaluate_running.
  destruct (evaluate isoformat fmt_fixed (now inp) (toasts inp) info
              (cpu_percent smp) (mem_percent smp) s1) as [[s2 evs] [e|]];
    unfold final, trace, escaped; cbn [fst snd]; [reflexivity|].
  assert (Hrec : recover cc cm (cpu_percent smp) (mem_percent smp)
                   (set_running b th s2) =
    (set_running b th (fst (recover cc cm (cpu_percent smp) (mem_percent smp) s2)),
     snd (recover cc cm (cpu_percent smp) (mem_percent smp) s2))).
  { unfold recover. cbn [set_running _alerting].
    destruct (_alerting s2 && Qltb (cpu_percent smp) (inject_Z cc)
              && Qltb (mem_percent smp) (inject_Z cm)); reflexivity. }
  rewrite Hrec.
  destruct (recover cc cm (cpu_percent smp) (mem_percent smp) s2) as [s3 rec].
  reflexivity.
Qed.

Lemma tick_keeps_thread (cc cm : Z) (inp : TickInput) (s : Monitor) :
  _thread (final (tick isoformat fmt_fixed cc cm inp s)) = _thread s /\
  on_log (final (tick isoformat fmt_fixed cc cm inp s)) = on_log s.
Proof.
  destruct (sample inp) as [smp|e] eqn:Hs.
  - destruct (tick_sampled isoformat fmt_fixed cc cm inp smp s Hs)
      as [evs [_ [_ [_ [_ Ht]]]]].
    rewrite Ht. unfold final. cbn [fst]. rewrite recover_state.
    set (s1 := snd (snapshot (now_ts inp) (ping inp) smp s)).
    assert (H1 : _thread s1 = _thread s /\ on_log s1 = on_log s).
    { unfold s1.
      destruct (snapshot_state (now_ts inp) (ping inp) smp s) as [H|[io H]];
        rewrite H; split; reflexivity. }
    set (s2 := if fires (now inp) (cpu_percent smp) (mem_percent smp) s1
               then set_alert (Some (now inp)) true s1 else s1).
    assert (H2 : _thread s2 = _thread s1 /\ on_log s2 = on_log s1).
    { unfold s2.
      destruct (fires (now inp) (cpu_percent smp) (mem_percent smp) s1);
        split; reflexivity. }
    destruct H1 as [H1a H1b]. destruct H2 as [H2a H2b].
    destruct (_alerting s2 && Qltb (cpu_percent smp) (inject_Z cc)
              && Qltb (mem_percent smp) (inject_Z cm));
      cbn [set_alert _thread on_log]; split; congruence.
  - unfold tick. rewrite Hs. split; reflexivity.
Qed.

(** X10.  [stop] does not interrupt the iteration in flight.  An iteration
    that runs with the running flag already cleared has exactly the effects
    of the same iteration without the stop (the same observer call, notifier
    call, log lines and sleep) and the same field updates, so it does not
    matter whether the stop lands before or after it; the loop then starts
    no further iteration, whatever inputs are waiting.  [stop] logs the same
    line in either order. *)
Theorem stop_lets_iteration_finish
    (cc cm : Z) (inp : TickInput) (rest : list TickInput) (s : Monitor) :
  let alone := tick isoformat fmt_fixed cc cm inp s in
  let stopped := tick isoformat fmt_fixed cc cm inp (fst (stop s)) in
  trace stopped = trace alone /\
  escaped stopped = escaped alone /\
  final stopped = fst (stop (final alone)) /\
  snd (stop (final alone)) = snd (stop s) /\
  run_loop isoformat fmt_fixed cc cm rest (final stopped) = (final stopped, [], None).
Proof.
  intros alone stopped.
  pose proof (tick_running false (_thread s) cc cm inp s) as H. cbv zeta in H.
  destruct (tick_keeps_thread cc cm inp s) as [Hth Hlog].
  fold alone in H, Hth, Hlog.
  assert (Hst : stopped = (set_running false (_thread s) (final alone),
                           trace alone, escaped alone)) by exact H.
  rewrite Hst. unfold final, trace, escaped in *. cbn [fst snd].
  split; [reflexivity|]. split; [reflexivity|].
  split; [unfold stop; cbn [fst]; rewrite Hth; reflexivity|].
  split; [unfold stop, _log; cbn [snd set_running on_log]; rewrite Hlog; reflexivity|].
  destruct rest; reflexivity.
Qed.

End Publishing.

(** ** The memory percentage *)

Lemma or_zero_sign (x : option Q) : or_zero x == 0 -> or_zero x = 0.
Proof.
  destruct x as [v|]; cbn; [|reflexivity].
  destruct (Qeq_bool v 0) eqn:E; [reflexivity|].
  intro H. apply Qeq_bool_neq in E. contradiction.
Qed.

(** The clamp by cases on the value it is given. *)
Lemma clamp_percent_cases (x : option Q) :
  (or_zero x <= 0 /\ clamp_percent x = 0) \/
  (0 < or_zero x <= 100 /\ clamp_percent x = or_zero x) \/
  (100 < or_zero x /\ clamp_percent x = 100).
Proof.
  unfold clamp_percent, py_max, py_min.
  destruct (Qltb (or_zero x) 0) eqn:E0.
  - left. apply Qltb_true in E0. split; [lra | reflexivity].
  - destruct (Qltb 100 (or_zero x)) eqn:E1.
    + right. right. apply Qltb_true in E1. split; [exact E1 | reflexivity].
    + destruct (Qlt_le_dec 0 (or_zero x)) as [Hpos|Hle].
      * right. left. split; [|reflexivity]. split; [exact Hpos|].
        destruct (Qlt_le_dec 100 (or_zero x)) as [Hbig|Hok]; [|exact Hok].
        apply Qltb_true in Hbig. congruence.
      * left. split; [exact Hle|]. apply or_zero_sign.
        destruct (Qlt_le_dec (or_zero x) 0) as [Hneg|Hge].
        -- apply Qltb_true in Hneg. congruence.
        -- apply Qle_antisym; assumption.
Qed.

(** X11.  The stored memory percentage is always between 0 and 100: a
    missing or zero reading gives 0, a reading inside the range is kept, and
    one outside is pulled to the nearer bound. *)
Theorem clamp_percent_bounds (x : option Q) :
  0 <= clamp_percent x <= 100 /\
  (clamp_percent None = 0) /\
  (forall v, 0 <= v <= 100 -> clamp_percent (Some v) == v) /\
  (forall v, 100 <= v -> clamp_percent (Some v) == 100) /\
  (forall v, v <= 0 -> clamp_percent (Some v) == 0).
Proof.
  split.
  { destruct (clamp_percent_cases x) as [[_ H]|[[[H0 H1] H]|[_ H]]]; rewrite H;
      try lra; split; discriminate. }
  split; [reflexivity|].
  assert (Hz : forall v, or_zero (Some v) == v).
  { intro v. cbn. destruct (Qeq_bool v 0) eqn:E; [|reflexivity].
    apply Qeq_bool_eq in E. symmetry. exact E. }
  repeat split; intros v Hv;
    destruct (clamp_percent_cases (Some v)) as [[H0 H]|[[[H0 H1] H]|[H0 H]]];
    rewrite H; rewrite ?Hz in *; try reflexivity; lra.
Qed.

Lemma clamp_percent_bounds_witness : clamp_percent (Some (250 # 1)) == 100.
Proof.
  apply (proj1 (proj2 (proj2 (proj2 (clamp_percent_bounds None))))).
  apply Qle_bool_imp_le. reflexivity.
Defined.

(** Clamping a clamped value gives it back unchanged. *)
Lemma clamp_percent_again (x : option Q) :
  clamp_percent (Some (clamp_percent x)) = clamp_percent x.
Proof.
  assert (Hfix : forall r, 0 <= r <= 100 -> (r == 0 -> r = 0) ->
                           clamp_percent (Some r) = r).
  { intros r [Hr0 Hr1] Hzero.
    assert (Ho : or_zero (Some r) = r).
    { cbn. destruct (Qeq_bool r 0) eqn:E; [|reflexivity].
      apply Qeq_bool_eq in E. symmetry. exact (Hzero E). }
    unfold clamp_percent, py_max, py_min. rewrite Ho.
    destruct (Qltb r 0) eqn:E0; [apply Qltb_true in E0; lra|].
    destruct (Qltb 100 r) eqn:E1; [apply Qltb_true in E1; lra|].
    reflexivity. }
  destruct (clamp_percent_cases x) as [[_ H]|[[[H0 H1] H]|[_ H]]]; rewrite H.
  - reflexivity.
  - apply Hfix; [split; lra|]. intro Hz. lra.
  - reflexivity.
Qed.

Section WindowFacts.

Variable fmt_fixed : nat -> Q -> string.

(** X12.  What the window shows for a snapshot the loop publishes.  The
    memory label is the clamped percentage of the sample, clamped once; the
    two rate labels are always numbers, never the placeholder, and they read
    0 KB/s while no counters are stored; the ping label is the placeholder
    exactly when the ping block gave nothing. *)
Theorem window_labels_of_published_snapshot
    (now_ts : Q) (ping : option Q) (ts : Z) (cpu mem : Q) (io : option NetIO)
    (s : Monitor) :
  let info := fst (snapshot now_ts ping (sample_of ts cpu mem io) s) in
  let shown := ui_update fmt_fixed info in
  mem_var shown = fmt_fixed 1 (clamp_percent (Some mem)) ++ "%" /\
  (exists up down,
     net_upload_bps info = Some up /\ net_download_bps info = Some down /\
     net_up_var shown = fmt_fixed 2 (up / 1024) ++ " KB/s" /\
     net_down_var shown = fmt_fixed 2 (down / 1024) ++ " KB/s") /\
  (_last_net_io s = None ->
     net_up_var shown = fmt_fixed 2 (0 / 1024) ++ " KB/s" /\
     net_down_var shown = fmt_fixed 2 (0 / 1024) ++ " KB/s") /\
  (ping = None -> ping_var shown = "-- ms") /\
  (forall p, ping = Some p -> ping_var shown = fmt_fixed 0 p ++ " ms").
Proof.
  intros info shown.
  destruct (snapshot_shape now_ts ping (sample_of ts cpu mem io) s)
    as [up [down Hinfo]].
  fold info in Hinfo. unfold shown. rewrite Hinfo. unfold ui_update.
  cbn [base net_upload_bps net_download_bps ping_ms sample_of memory_percent
       mem_var net_up_var net_down_var ping_var].
  split; [rewrite clamp_percent_again; reflexivity|].
  split; [exists up, down; repeat split|].
  split.
  - intro Hnone.
    assert (H0 : up = 0 /\ down = 0).
    { assert (Hi : info = mkInfo (sample_of ts cpu mem io) (Some 0) (Some 0) ping).
      { unfold info, snapshot, net_rates. rewrite Hnone.
        destruct (net_io (sample_of ts cpu mem io)); reflexivity. }
      rewrite Hi in Hinfo. injection Hinfo as -> ->. split; reflexivity. }
    destruct H0 as [-> ->]. split; reflexivity.
  - split; [intros ->; reflexivity | intros p ->; reflexivity].
Qed.

End WindowFacts.

Lemma window_labels_of_published_snapshot_witness :
  let info := fst (snapshot 10 None (sample_of 0 20 130 None) default_monitor) in
  net_up_var (ui_update plain_fixed info) = plain_fixed 2 (0 / 1024) ++ " KB/s" /\
  net_down_var (ui_update plain_fixed info) = plain_fixed 2 (0 / 1024) ++ " KB/s".
Proof.
  apply (proj1 (proj2 (proj2 (window_labels_of_published_snapshot plain_fixed
           10 None 0 20 130 None default_monitor)))).
  reflexivity.
Defined.

(** ** The Start button and the fields the loop ignores *)

Lemma snapshot_legacy (l : Z) (cfg : list (string * string))
    (now_ts : Q) (ping : option Q) (smp : Sample) (s : Monitor) :
  snapshot now_ts ping smp (with_legacy l cfg s) =
    (fst (snapshot now_ts ping smp s),
     with_legacy l cfg (snd (snapshot now_ts ping smp s))).
Proof.
  unfold snapshot. destruct (net_io smp) as [io|]; [|reflexivity].
  change (net_rates now_ts io (with_legacy l cfg s)) with (net_rates now_ts io s).
  destruct (net_rates now_ts io s). reflexivity.
Qed.

Lemma recover_legacy (l : Z) (cfg : list (string * string))
    (cc cm : Z) (cpu mem : Q) (s : Monitor) :
  recover cc cm cpu mem (with_legacy l cfg s) =
    (with_legacy l cfg (fst (recover cc cm cpu mem s)),
     snd (recover cc cm cpu mem s)).
Proof.
  unfold recover. cbn [with_legacy _alerting].
  destruct (_alerting s && Qltb cpu (inject_Z cc) && Qltb mem (inject_Z cm));
    reflexivity.
Qed.

Lemma recover_trace (cc cm : Z) (cpu mem : Q) (s : Monitor) :
  snd (recover cc cm cpu mem s) =
    if _alerting s && Qltb cpu (inject_Z cc) && Qltb mem (inject_Z cm)
    then _log s recovered_msg else [].
Proof.
  unfold recover.
  destruct (_alerting s && Qltb cpu (inject_Z cc) && Qltb mem (inject_Z cm));
    reflexivity.
Qed.

Section Retargeting.

Variable isoformat : Z -> string.
Variable fmt_fixed : nat -> Q -> string.

Lemma evaluate_legacy (l : Z) (cfg : list (string * string))
    (now : Z) (env : ToastEnv) (info : Info) (cpu mem : Q) (s : Monitor) :
  let r := evaluate isoformat fmt_fixed now env info cpu mem s in
  evaluate isoformat fmt_fixed now env info cpu mem (with_legacy l cfg s) =
    (with_legacy l cfg (final r), trace r, escaped r).
Proof.
  intro r. unfold r, evaluate.
  change (trigger_reasons fmt_fixed cpu mem (with_legacy l cfg s))
    with (trigger_reasons fmt_fixed cpu mem s).
  change (can_send now (with_legacy l cfg s)) with (can_send now s).
  destruct (trigger_reasons fmt_fixed cpu mem s) as [|r1 rs]; [reflexivity|].
  destruct (Qleb cpu 0 && Qleb mem 0); [reflexivity|].
  destruct (can_send now s); [|reflexivity].
  destruct (build_body isoformat fmt_fixed now cpu mem info) as [body|e];
    [|reflexivity].
  destruct (send_windows_notification env
              ("Resource alert: " ++ concat ", " (r1 :: rs)) body)
    as [[success msg] sent].
  destruct success; reflexivity.
Qed.

Lemma tick_legacy (l : Z) (cfg : list (string * string))
    (cc cm : Z) (inp : TickInput) (s : Monitor) :
  let r := tick isoformat fmt_fixed cc cm inp s in
  tick isoformat fmt_fixed cc cm inp (with_legacy l cfg s) =
    (with_legacy l cfg (final r), trace r, escaped r).
Proof.
  intro r. unfold r, tick. destruct (sample inp) as [smp|e]; [|reflexivity].
  rewrite snapshot_legacy.
  destruct (snapshot (now_ts inp) (ping inp) smp s) as [info s1]. cbn [fst snd].
  change (publish (with_legacy l cfg s1) info) with (publish s1 info).
  rewrite evaluate_legacy.
  destruct (evaluate isoformat fmt_fixed (now inp) (toasts inp) info
              (cpu_percent smp) (mem_percent smp) s1) as [[s2 evs] [e|]];
    unfold final, trace, escaped; cbn [fst snd]; [reflexivity|].
  rewrite recover_legacy.
  destruct (recover cc cm (cpu_percent smp) (mem_percent smp) s2) as [s3 rec].
  reflexivity.
Qed.

Lemma run_loop_legacy (l : Z) (cfg : list (string * string)) (cc cm : Z)
    (inps : list TickInput) :
  forall s,
    let r := run_loop isoformat fmt_fixed cc cm inps s in
    run_loop isoformat fmt_fixed cc cm inps (with_legacy l cfg s) =
      (with_legacy l cfg (final r), trace r, escaped r).
Proof.
  induction inps as [|inp rest IH]; intro s; cbn [run_loop]; [reflexivity|].
  change (_running (with_legacy l cfg s)) with (_running s).
  destruct (_running s); [|reflexivity].
  rewrite tick_legacy.
  destruct (tick isoformat fmt_fixed cc cm inp s) as [[s' evs] [e|]];
    unfold final, trace, escaped; cbn [fst snd]; [reflexivity|].
  rewrite (IH s').
  destruct (run_loop isoformat fmt_fixed cc cm rest s') as [[s'' evs'] r].
  reflexivity.
Qed.

(** X13.  The legacy rate limit (the constructor's [rate_limit_min]) and the
    e-mail configuration have no effect on monitoring: two monitors that
    differ only in these two fields go through the same effects in the same
    order, end the same way and stay equal but for these two fields. *)
Theorem legacy_fields_are_ignored
    (l l' : Z) (cfg cfg' : list (string * string)) (inps : list TickInput)
    (s : Monitor) :
  let a := _loop isoformat fmt_fixed inps (with_legacy l cfg s) in
  let b := _loop isoformat fmt_fixed inps (with_legacy l' cfg' s) in
  trace a = trace b /\ escaped a = escaped b /\
  final a = with_legacy l cfg (final b).
Proof.
  intros a b. unfold a, b, _loop.
  change (cpu_threshold (with_legacy l cfg s)) with (cpu_threshold s).
  change (mem_threshold (with_legacy l cfg s)) with (mem_threshold s).
  change (cpu_threshold (with_legacy l' cfg' s)) with (cpu_threshold s).
  change (mem_threshold (with_legacy l' cfg' s)) with (mem_threshold s).
  cbv zeta.
  pose proof (run_loop_legacy l cfg (Z.max 0 (cpu_threshold s - 15))
                (Z.max 0 (mem_threshold s - 15)) inps (with_legacy l' cfg' s)) as H.
  cbv zeta in H.
  change (with_legacy l cfg (with_legacy l' cfg' s)) with (with_legacy l cfg s) in H.
  rewrite H. unfold trace, escaped, final. cbn [fst snd]. repeat split.
Qed.

(** X14.  The Start button on a running monitor with two valid entries only
    overwrites the two thresholds: no thread is started and nothing is
    logged.  The next iteration already decides against the new thresholds:
    it calls the notifier exactly when a reading reaches its new threshold,
    the readings are not both at or below zero and the rate limit allows
    it. *)
Theorem start_button_retargets_running_monitor
    (c m cc cm : Z) (inp : TickInput) (smp : Sample) (s : Monitor) :
  _running s = true -> sample inp = Ok smp ->
  let pressed := gui_start (Ok c) (Ok m) s in
  let cpu := cpu_percent smp in
  let mem := mem_percent smp in
  pressed = (set_mem_threshold m (set_cpu_threshold c s), [], None) /\
  (notify_count (trace (tick isoformat fmt_fixed cc cm inp (final pressed))) = 1%nat
   <->
   (inject_Z c <= cpu \/ inject_Z m <= mem) /\
   ~ (cpu <= 0 /\ mem <= 0) /\
   (_last_alert s = None \/
    exists last, _last_alert s = Some last /\
      inject_Z (notify_interval_sec s) <= total_seconds (now inp - last))).
Proof.
  intros Hr Hs pressed cpu mem.
  assert (Hp : pressed = (set_mem_threshold m (set_cpu_threshold c s), [], None)).
  { unfold pressed, gui_start, start. cbn [set_mem_threshold set_cpu_threshold _running].
    rewrite Hr. reflexivity. }
  split; [exact Hp|]. rewrite Hp. unfold final. cbn [fst].
  pose proof (tick_alert_summary isoformat fmt_fixed cc cm inp
                (set_mem_threshold m (set_cpu_threshold c s))) as H.
  cbv zeta in H. rewrite Hs in H. destruct H as [Hn _]. rewrite Hn.
  fold cpu mem.
  pose proof (fires_iff_alert_due (now inp) cpu mem
                (set_mem_threshold m (set_cpu_threshold c s))) as G.
  unfold alert_due in G.
  cbn [set_mem_threshold set_cpu_threshold cpu_threshold mem_threshold
       _last_alert notify_interval_sec] in G.
  destruct (fires (now inp) cpu mem (set_mem_threshold m (set_cpu_threshold c s))).
  - split; [intros _; apply G; reflexivity | reflexivity].
  - split; [discriminate|]. intro H. apply G in H. discriminate H.
Qed.

(** X15.  Lowering the thresholds with the Start button while the loop runs
    can make one iteration both alert and recover.  The loop keeps the clear
    thresholds it computed on entry; so when, after the button, an alert is
    due and both readings are below those old clear thresholds, the
    iteration calls the notifier once, logs the recovery and ends with the
    alerting flag cleared and the alert time set. *)
Theorem start_button_makes_alert_and_recovery_coincide
    (s0 : Monitor) (pre : list TickInput) (c m : Z) (inp : TickInput)
    (smp : Sample) :
  let reached := final (_loop isoformat fmt_fixed pre s0) in
  let retargeted := final (gui_start (Ok c) (Ok m) reached) in
  let clear_cpu := Z.max 0 (cpu_threshold s0 - 15) in
  let clear_mem := Z.max 0 (mem_threshold s0 - 15) in
  let cpu := cpu_percent smp in
  let mem := mem_percent smp in
  _running reached = true -> sample inp = Ok smp ->
  alert_due (now inp) cpu mem retargeted ->
  cpu < inject_Z clear_cpu -> mem < inject_Z clear_mem ->
  let r := tick isoformat fmt_fixed clear_cpu clear_mem inp retargeted in
  notify_count (trace r) = 1%nat /\
  incl (_log reached recovered_msg) (trace r) /\
  _alerting (final r) = false /\
  _last_alert (final r) = Some (now inp).
Proof.
  intros reached retargeted clear_cpu clear_mem cpu mem Hrun Hs Hdue Hc Hm r.
  destruct (tick_sampled isoformat fmt_fixed clear_cpu clear_mem inp smp retargeted Hs)
    as [evs [_ [Hn [_ [_ Ht]]]]].
  fold cpu mem in Hn, Ht.
  pose proof (snapshot_keeps_alert_fields (now_ts inp) (ping inp) smp retargeted) as K.
  cbv zeta in K.
  set (s1 := snd (snapshot (now_ts inp) (ping inp) smp retargeted)) in *.
  destruct K as [Kf [_ [_ [_ [_ [Kl _]]]]]].
  rewrite Kf in Hn, Ht.
  apply fires_iff_alert_due in Hdue. rewrite Hdue in Hn, Ht.
  apply Qltb_true in Hc. apply Qltb_true in Hm.
  assert (Hlog : forall msg, _log s1 msg = _log reached msg).
  { intro msg. rewrite Kl. unfold retargeted, gui_start, start.
    cbn [set_mem_threshold set_cpu_threshold _running]. rewrite Hrun. reflexivity. }
  unfold r. rewrite Ht. unfold trace, final. cbn [fst snd].
  rewrite recover_state, recover_trace.
  change (_alerting (set_alert (Some (now inp)) true s1)) with true.
  rewrite Hc, Hm. cbn [andb].
  split.
  - rewrite !notify_count_app, notify_count_publish, notify_count_log, Hn.
    reflexivity.
  - split; [|split; reflexivity].
    change (_log (set_alert (Some (now inp)) true s1) recovered_msg)
      with (_log s1 recovered_msg).
    rewrite Hlog. intros e He.
    apply in_or_app. right. apply in_or_app. right. apply in_or_app. left. exact He.
Qed.

End Retargeting.

Lemma start_button_retargets_running_monitor_witness :
  gui_start (Ok 50%Z) (Ok 60%Z) running_monitor
  = (set_mem_threshold 60 (set_cpu_threshold 50 running_monitor), [], None).
Proof.
  apply (proj1 (start_button_retargets_running_monitor plain_iso plain_fixed
                  50 60 75 55 (at_second 10 60 40) (reading 60 40 1000 5000)
                  running_monitor eq_refl eq_refl)).
Defined.

Lemma start_button_makes_alert_and_recovery_coincide_witness :
  let retargeted := final (gui_start (Ok 50%Z) (Ok 50%Z) running_monitor) in
  let r := tick plain_iso plain_fixed 75 55 (at_second 10 60 40) retargeted in
  notify_count (trace r) = 1%nat /\ _alerting (final r) = false.
Proof.
  pose proof (start_button_makes_alert_and_recovery_coincide plain_iso plain_fixed
                running_monitor [] 50 50 (at_second 10 60 40)
                (reading 60 40 1000 5000)) as H.
  cbv zeta in H.
  assert (Hdue : alert_due (now (at_second 10 60 40)) 60 40
                   (final (gui_start (Ok 50%Z) (Ok 50%Z)
                      (final (_loop plain_iso plain_fixed [] running_monitor))))).
  { apply fires_iff_alert_due. reflexivity. }
  destruct (H eq_refl eq_refl Hdue) as [Hn [_ [Ha _]]].
  - reflexivity.
  - reflexivity.
  - split; [exact Hn | exact Ha].
Defined.

(** ** Interface names *)

Lemma lower_ascii_again (c : ascii) : lower_ascii (lower_ascii c) = lower_ascii c.
Proof.
  destruct c as [b0 b1 b2 b3 b4 b5 b6 b7].
  destruct b0, b1, b2, b3, b4, b5, b6, b7; reflexivity.
Qed.

(** X16.  The interface type does not depend on the case of the name:
    any name and its lowered form are classified alike, on every system. *)
Theorem nic_type_ignores_case (system ifname : string) :
  nic_type system (lower ifname) = nic_type system ifname.
Proof.
  assert (Hlower : forall s, lower (lower s) = lower s).
  { induction s as [|c r IH]; [reflexivity|].
    cbn [lower]. rewrite lower_ascii_again, IH. reflexivity. }
  unfold nic_type. rewrite Hlower. reflexivity.
Qed.

(** X17.  The loopback test comes first: on every system, a name that
    starts with "lo" in any case, or has "loopback" in it, is typed
    loopback, whatever else it contains.  On Windows every other name is
    typed wireless or ethernet, never unknown, and ethernet exactly when it
    has none of "wi-fi", "wifi", "wireless", "wlan" in it. *)
Theorem nic_type_loopback_first_windows_total (system ifname : string) :
  let lname := lower ifname in
  (prefix "lo" lname = true \/ contains "loopback" lname = true ->
   nic_type system ifname = "loopback") /\
  (nic_type "windows" ifname = "loopback" \/
   nic_type "windows" ifname = "wireless" \/
   nic_type "windows" ifname = "ethernet") /\
  (nic_type "windows" ifname = "ethernet" <->
   prefix "lo" lname = false /\ contains "loopback" lname = false /\
   contains "wi-fi" lname = false /\ contains "wifi" lname = false /\
   contains "wireless" lname = false /\ contains "wlan" lname = false).
Proof.
  intro lname. unfold nic_type. fold lname.
  change (String.eqb "windows" "windows") with true. cbv iota.
  split.
  - intros [H|H]; rewrite H; [reflexivity|].
    rewrite orb_true_r. reflexivity.
  - destruct (prefix "lo" lname); destruct (contains "loopback" lname);
      destruct (contains "wi-fi" lname); destruct (contains "wifi" lname);
      destruct (contains "wireless" lname); destruct (contains "wlan" lname);
      cbn [orb]; (split; [tauto|]);
      (split; [try discriminate; intros; repeat split; reflexivity|]);
      intros [? [? [? [? [? ?]]]]]; try discriminate; reflexivity.
Qed.

Lemma nic_type_loopback_first_windows_total_witness :
  nic_type "windows" "Local Area Connection" = "loopback".
Proof.
  apply (proj1 (nic_type_loopback_first_windows_total "windows"
                  "Local Area Connection")).
  left. reflexivity.
Defined.

(** ** The ping block *)

Lemma digits_value_nonneg (s : string) :
  forall acc, (0 <= acc)%Z -> (0 <= digits_value acc s)%Z.
Proof.
  induction s as [|c r IH]; intros acc Hacc; cbn [digits_value]; [exact Hacc|].
  apply IH. lia.
Qed.

Lemma float_of_group_nonneg (g : string * option string) : 0 <= float_of_group g.
Proof.
  destruct g as [whole [frac|]]; unfold float_of_group.
  - pose proof (digits_value_nonneg whole 0 (Z.le_refl 0)) as Hw.
    pose proof (digits_value_nonneg frac 0 (Z.le_refl 0)) as Hf.
    assert (Hp : (0 < 10 ^ Z.of_nat (String.length frac))%Z)
      by (apply Z.pow_pos_nonneg; lia).
    rewrite Zle_Qle in Hw. rewrite Zlt_Qlt in Hp.
    pose proof (quotient_nonneg (digits_value 0 frac) _ Hf Hp) as Hq.
    change (inject_Z 0) with 0 in *. lra.
  - pose proof (digits_value_nonneg whole 0 (Z.le_refl 0)) as Hw.
    rewrite Zle_Qle in Hw. exact Hw.
Qed.

(** A literal prefix was stripped exactly when the text starts with it. *)
Lemma strip_prefix_app (p s r : string) :
  strip_prefix p s = Some r <-> s = p ++ r.
Proof.
  revert s. induction p as [|a p IH]; intro s; cbn [strip_prefix append].
  - split; [intro H; injection H as ->; reflexivity | intros ->; reflexivity].
  - destruct s as [|b s]; [split; discriminate|].
    destruct (Ascii.eqb_spec a b) as [->|Hne].
    + rewrite IH. split; [intros ->; reflexivity | intro H; injection H as ->; reflexivity].
    + split; [discriminate|]. intro H. injection H as Hab _. congruence.
Qed.

(** Where the second pattern matches, the first matches too, with the same
    digits. *)
Lemma match_time_plain_covered (s whole : string) :
  match_time_plain s = Some whole -> match_time s = Some (whole, None).
Proof.
  unfold match_time_plain, match_time.
  destruct (strip_prefix "time=" s) as [r|] eqn:Hp; [|discriminate].
  apply strip_prefix_app in Hp. subst s.
  change (strip_prefix "time" ("time=" ++ r)) with (Some (String "="%char r)).
  cbv iota.
  destruct (take_digits (skip_space r)) as [w r1].
  destruct w as [|d ds]; [discriminate|].
  destruct (strip_prefix "ms" r1) as [x|] eqn:Hms; [|discriminate].
  intro H. injection H as <-.
  apply strip_prefix_app in Hms. subst r1.
  reflexivity.
Qed.

Lemma search_time_plain_covered (s : string) :
  search_time s = None -> search_time_plain s = None.
Proof.
  induction s as [|c r IH]; cbn [search_time search_time_plain].
  - destruct (match_time "") eqn:E1; [discriminate|].
    destruct (match_time_plain "") eqn:E2; [|reflexivity].
    apply match_time_plain_covered in E2. congruence.
  - destruct (match_time (String c r)) eqn:E1; [discriminate|].
    destruct (match_time_plain (String c r)) eqn:E2.
    + apply match_time_plain_covered in E2. congruence.
    + exact IH.
Qed.

(** X18.  The second regular expression of the ping block is never the one
    that gives the result: wherever it matches, the first one matches as
    well, so the block is the first search alone, on stdout or, when that is
    empty, on stderr; and a failed [subprocess.run] gives [None]. *)
Theorem ping_fallback_pattern_is_dead (run : outcome Completed) :
  ping_block run =
    match run with
    | Raise _ => None
    | Ok proc =>
        let out := match stdout proc with
                   | EmptyString => stderr proc
                   | String _ _ => stdout proc
                   end in
        match search_time out with
        | Some g => Some (float_of_group g)
        | None => None
        end
    end.
Proof.
  unfold ping_block. destruct run as [proc|e]; [|reflexivity].
  cbv zeta.
  destruct (search_time _) eqn:E; [reflexivity|].
  rewrite (search_time_plain_covered _ E). reflexivity.
Qed.

(** X19.  A measured ping is never negative. *)
Theorem ping_is_never_negative (run : outcome Completed) (p : Q) :
  ping_block run = Some p -> 0 <= p.
Proof.
  unfold ping_block. destruct run as [proc|e]; [|discriminate].
  cbv zeta. destruct (search_time _) as [g|].
  - intro H. injection H as <-. apply float_of_group_nonneg.
  - destruct (search_time_plain _) as [w|]; [|discriminate].
    intro H. injection H as <-. apply (float_of_group_nonneg (w, None)).
Qed.

Lemma ping_is_never_negative_witness :
  0 <= 123 # 10.
Proof.
  apply (ping_is_never_negative
           (Ok (mkCompleted "64 bytes from 8.8.8.8: icmp_seq=1 ttl=117 time=12.3 ms" ""))).
  vm_compute. reflexivity.
Defined.

(** ** Disk partitions *)

Lemma collect_partitions_filter (disk_usage : string -> outcome Usage)
    (parts : list Partition) :
  List.map entry_of (collect_partitions disk_usage parts)
    = List.filter (usage_read disk_usage) parts /\
  Forall (fun e => disk_usage (mountpoint (entry_of e)) = Ok (usage e))
         (collect_partitions disk_usage parts).
Proof.
  induction parts as [|part rest [IHm IHf]]; [split; [reflexivity | constructor]|].
  cbn [collect_partitions List.filter]. unfold usage_read at 1.
  destruct (disk_usage (mountpoint part)) as [u|e] eqn:E.
  - split; [cbn [List.map entry_of]; rewrite IHm; reflexivity|].
    constructor; [exact E | exact IHf].
  - split; [exact IHm | exact IHf].
Qed.

(** X20.  The partition list reports exactly the partitions whose usage
    could be read, in the order psutil listed them, each with the usage that
    was read for its mount point; unreadable ones are dropped.  When the
    listing itself fails, the report is the root path alone, as device and
    as mount point with empty type and options, if its usage can be read,
    and empty if not; the root path is "C:\" when [os.name] is "nt" and "/"
    for every other value. *)
Theorem partitions_report_only_readable
    (disk_usage : string -> outcome Usage) (listing : outcome (list Partition))
    (os_name : string) :
  let report := disk_partitions disk_usage listing os_name in
  let root_entry := fun (path : string) (u : Usage) =>
    mkEntry (mkPartition path path "" "") u in
  Forall (fun e => disk_usage (mountpoint (entry_of e)) = Ok (usage e)) report /\
  (forall parts, listing = Ok parts ->
     List.map entry_of report = List.filter (usage_read disk_usage) parts) /\
  (forall e, listing = Raise e ->
     (os_name = "nt" ->
        (forall u, disk_usage "C:\" = Ok u -> report = [root_entry "C:\" u]) /\
        (forall e', disk_usage "C:\" = Raise e' -> report = [])) /\
     (os_name <> "nt" ->
        (forall u, disk_usage "/" = Ok u -> report = [root_entry "/" u]) /\
        (forall e', disk_usage "/" = Raise e' -> report = []))).
Proof.
  intros report root_entry. unfold report, disk_partitions.
  destruct listing as [parts|e].
  - destruct (collect_partitions_filter disk_usage parts) as [Hm Hf].
    split; [exact Hf|]. split; [|discriminate].
    intros parts' H. injection H as <-. exact Hm.
  - cbv zeta. split.
    { destruct (disk_usage (if String.eqb os_name "nt" then "C:\" else "/"))
        as [u|e'] eqn:E; constructor; [exact E | constructor]. }
    split; [discriminate|]. intros _ _. split.
    + intro Hnt. apply String.eqb_eq in Hnt. rewrite Hnt.
      split; [intros u Hu | intros e' He']; [rewrite Hu | rewrite He']; reflexivity.
    + intro Hnt. apply String.eqb_neq in Hnt. rewrite Hnt.
      split; [intros u Hu | intros e' He']; [rewrite Hu | rewrite He']; reflexivity.
Qed.

Lemma partitions_report_only_readable_witness :
  let disk_usage := fun mp : string =>
    if String.eqb mp "/" then Ok (mkUsage 100 40 60 40)
    else Raise (OtherException "PermissionError") in
  List.map entry_of
    (disk_partitions disk_usage
       (Ok [mkPartition "/dev/sda1" "/" "ext4" "rw";
            mkPartition "/dev/sr0" "/media/cd" "iso9660" "ro"]) "posix")
  = [mkPartition "/dev/sda1" "/" "ext4" "rw"].
Proof.
  exact (proj1 (proj2 (partitions_report_only_readable
           (fun mp : string =>
              if String.eqb mp "/" then Ok (mkUsage 100 40 60 40)
              else Raise (OtherException "PermissionError"))
           (Ok [mkPartition "/dev/sda1" "/" "ext4" "rw";
                mkPartition "/dev/sr0" "/media/cd" "iso9660" "ro"]) "posix"))
         _ eq_refl).
Defined.

(** ** Console mode *)

(** X21.  Console mode has neither rate limit nor zero guard: as long as
    samples are read, every sample with a reading at or above its threshold
    prints one alert line, so the number of alert lines is the number of
    such samples. *)
Theorem console_alerts_on_every_breach
    (cpu_thr mem_thr interval_arg : Z) (inps : list ConsoleInput) :
  Forall (fun i => exists smp, i = Sampled (Ok smp)) inps ->
  List.length
    (List.filter is_alert_line
       (fst (console_loop cpu_thr mem_thr interval_arg inps)))
  = List.length (List.filter (breaching cpu_thr mem_thr) inps) /\
  snd (console_loop cpu_thr mem_thr interval_arg inps) = None.
Proof.
  induction 1 as [|i rest [smp ->] _ [IHn IHe]]; [split; reflexivity|].
  cbn [console_loop List.filter breaching].
  destruct (console_loop cpu_thr mem_thr interval_arg rest) as [evs r].
  cbn [fst snd] in *.
  destruct (Qgeb (cpu_percent smp) (inject_Z cpu_thr)
            || Qgeb (mem_percent smp) (inject_Z mem_thr));
    cbn; rewrite IHn; split; (reflexivity || exact IHe).
Qed.

Lemma console_alerts_on_every_breach_witness :
  List.length
    (List.filter is_alert_line
       (fst (console_loop 0 70 1
               [Sampled (Ok (reading 0 0 0 0)); Sampled (Ok (reading 0 0 0 0))])))
  = 2%nat.
Proof.
  refine (proj1 (console_alerts_on_every_breach 0 70 1
           [Sampled (Ok (reading 0 0 0 0)); Sampled (Ok (reading 0 0 0 0))] _)).
  repeat constructor; eexists; reflexivity.
Defined.

(** ** The loop theorems at concrete runs *)

Lemma last_alert_follows_notifier_witness :
  _last_alert
    (final (tick plain_iso plain_fixed 75 55 (at_second 12 96 50) alerted_monitor))
  = Some 10000000%Z.
Proof.
  apply (proj1 (last_alert_follows_notifier plain_iso plain_fixed 75 55
                  (at_second 12 96 50) alerted_monitor)).
  reflexivity.
Defined.

Lemma one_notification_per_window_witness :
  (notify_count
     (trace (run_loop plain_iso plain_fixed 75 55
               [at_second 1 95 50; at_second 5 96 50; at_second 10 97 50]
               running_monitor)) <= 1)%nat.
Proof.
  apply (one_notification_per_window plain_iso plain_fixed 75 55
           1000000 10000000
           [at_second 1 95 50; at_second 5 96 50; at_second 10 97 50]
           running_monitor).
  - repeat constructor; cbn; lia.
  - cbn. lia.
Defined.

Lemma alerting_has_alert_time_witness :
  _last_alert
    (final (run_loop plain_iso plain_fixed 75 55 [at_second 10 95 50] running_monitor))
  <> None.
Proof.
  apply (alerting_has_alert_time plain_iso plain_fixed 75 55 [at_second 10 95 50]
           running_monitor).
  - discriminate.
  - reflexivity.
Defined.

Lemma crashed_loop_blocks_start_witness :
  let inps := [at_second 10 20 30;
               mkTickInput (Raise (OtherException "psutil.Error")) 11 None 11000000
                 console_only] in
  let dead := final (run_loop plain_iso plain_fixed 75 55 inps running_monitor) in
  _running dead = true /\ start dead = (dead, []).
Proof.
  apply (crashed_loop_blocks_start plain_iso plain_fixed 75 55
           [at_second 10 20 30;
            mkTickInput (Raise (OtherException "psutil.Error")) 11 None 11000000
              console_only]
           running_monitor (OtherException "psutil.Error")).
  reflexivity.
Defined.

Lemma observer_is_called_first_and_once_witness :
  exists rest,
    trace (tick plain_iso plain_fixed 75 55 (at_second 10 95 50) watched_monitor)
    = EvUpdate (fst (snapshot 10 None (reading 95 50 1000 5000) watched_monitor))
        :: rest /\
    update_count rest = 0%nat.
Proof.
  apply (proj1 (observer_is_called_first_and_once plain_iso plain_fixed 75 55
                  (at_second 10 95 50) (reading 95 50 1000 5000) watched_monitor
                  eq_refl)).
  exists failing_observer. reflexivity.
Defined.

(** ** What a notification says *)

Section Wording.

Variable isoformat : Z -> string.
Variable fmt_fixed : nat -> Q -> string.


End Wording.

